(** * LSM9DS1 SPI driver (final revision): register transactions and scaling

    Shallow embedding of the last revision of the LSM9DS1 driver
    ([LSM9DS1_Init], [SPI_transfer], [read_SPI], [write_SPI] and the typed
    accessors).  Peripheral registers and the global [RDxBuffer] are fields of
    an explicit machine state threaded through a small state monad; every
    write to the chip-select port and every byte exchanged on the bus is
    appended to a ghost log, so that wire-level properties can be stated on
    what a logic analyser would see. *)

From Stdlib Require Import ZArith List Bool Lia.
From Stdlib Require String.
Import ListNotations.
Local Open Scope Z_scope.

(** ** C integer conversions *)

(** Conversion to [uint8_t]: reduction modulo 2^8. *)
Definition uint8_t (x : Z) : Z := x mod 256.

(** Conversion to [uint16_t]: reduction modulo 2^16. *)
Definition uint16_t (x : Z) : Z := x mod 65536.

(** Conversion to [int16_t]: two's-complement reinterpretation of the low
    16 bits (what the ARM compilers targeted by the project do for
    out-of-range values). *)
Definition int16_t (x : Z) : Z := (x + 32768) mod 65536 - 32768.

(** ** Device header constants *)

(** Modelled from the spec: the device header msp.h is not among the sources.
    Pin masks follow the driver's wiring comment (P6.0 = CSAG, P6.1 = CSM,
    P6.2 = UCB1STE, P6.3 = UCB1CLK, P6.4 = UCB1SIMO, P6.5 = UCB1SOMI). *)
Definition BIT0 : Z := 0x01.
Definition BIT1 : Z := 0x02.
Definition BIT2 : Z := 0x04.
Definition BIT3 : Z := 0x08.
Definition BIT4 : Z := 0x10.
Definition BIT5 : Z := 0x20.

(** Modelled from the spec: control-word bits of the eUSCI_B module, absent
    with msp.h; positions as in the bit table of the driver's first revision
    (bit15 UCCKPH, bit13 UCMSB, bit11 UCMST, bits10-9 UCMODEx, bit8 UCSYNC,
    bits7-6 UCSSELx, bit1 UCSTEM, bit0 reset). *)
Definition EUSCI_B_CTLW0_SWRST : Z := 0x0001.
Definition EUSCI_B_CTLW0_STEM : Z := 0x0002.
Definition EUSCI_B_CTLW0_SSEL__ACLK : Z := 0x0040.
Definition EUSCI_B_CTLW0_SYNC : Z := 0x0100.
Definition EUSCI_B_CTLW0_MODE_1 : Z := 0x0200.
Definition EUSCI_B_CTLW0_MST : Z := 0x0800.
Definition EUSCI_B_CTLW0_MSB : Z := 0x2000.
Definition EUSCI_B_CTLW0_CKPH : Z := 0x8000.

(** ** Register map (the [#define]s used by the final revision) *)

Definition WHO_AM_I : Z := 0x0F.
Definition CTRL_REG1_G : Z := 0x10.
Definition OUT_TEMP_L : Z := 0x15.
Definition OUT_X_L_G : Z := 0x18.
Definition OUT_Y_L_G : Z := 0x1A.
Definition OUT_Z_L_G : Z := 0x1C.
Definition CTRL_REG5_XL : Z := 0x1F.
Definition CTRL_REG6_XL : Z := 0x20.
Definition CTRL_REG8 : Z := 0x22.
Definition OUT_X_L_XL : Z := 0x28.
Definition OUT_Y_L_XL : Z := 0x2A.
Definition OUT_Z_L_XL : Z := 0x2C.
Definition CTRL_REG1_M : Z := 0x20.
Definition CTRL_REG3_M : Z := 0x22.
Definition CTRL_REG4_M : Z := 0x23.
Definition OUT_X_L_M : Z := 0x28.
Definition OUT_Y_L_M : Z := 0x2A.
Definition OUT_Z_L_M : Z := 0x2C.

(** ** Data model *)

(** [enum ss_t {AG, M, A, G}] of LSM9DS1.h. *)
Inductive ss_t : Type := AG | M | A | G.

Definition ss_t_eqb (x y : ss_t) : bool :=
  match x, y with
  | AG, AG | M, M | A, A | G, G => true
  | _, _ => false
  end.

(** What is observable on the wires.  [GPIO p] is a store to P6OUT leaving
    the port at [p]; [XFER p mosi miso] is one byte exchange, [mosi] clocked
    out and [miso] clocked in while the port was at [p]. *)
Inductive event : Type :=
| GPIO (p6out : Z)
| XFER (p6out mosi miso : Z).

(** Machine state: port 6 registers, the eUSCI_B1 registers the driver
    touches, the global [RDxBuffer], and the ghost log (oldest first). *)
Record state : Type := mkState {
  P6SEL0 : Z;
  P6DIR : Z;
  P6OUT : Z;
  CTLW0 : Z;
  BRW : Z;
  TXBUF : Z;
  RXBUF : Z;
  RDxBuffer : Z;
  bus : list event
}.

(** ** A state monad for the driver *)

Definition drv (T : Type) : Type := state -> T * state.

Definition ret {T : Type} (x : T) : drv T := fun s => (x, s).

Definition bind {T U : Type} (c : drv T) (k : T -> drv U) : drv U :=
  fun s => let (x, s') := c s in k x s'.

Declare Scope drv_scope.
Delimit Scope drv_scope with drv.
Bind Scope drv_scope with drv.

Notation "x <- c1 ;; c2" := (bind c1 (fun x => c2))
  (at level 61, c1 at next level, right associativity) : drv_scope.
Notation "c1 ;; c2" := (bind c1 (fun _ => c2))
  (at level 61, right associativity) : drv_scope.

Local Open Scope drv_scope.

Definition exec {T : Type} (c : drv T) (s : state) : state := snd (c s).
Definition result {T : Type} (c : drv T) (s : state) : T := fst (c s).

(** Events appended to the log by running [c] from [s]. *)
Definition emitted {T : Type} (c : drv T) (s : state) : list event :=
  skipn (length (bus s)) (bus (exec c s)).

(** Register loads and stores. *)
Definition load (reg : state -> Z) : drv Z := fun s => (reg s, s).

Definition store_P6SEL0 (v : Z) : drv unit := fun s =>
  (tt, mkState (uint8_t v) (P6DIR s) (P6OUT s) (CTLW0 s) (BRW s) (TXBUF s)
         (RXBUF s) (RDxBuffer s) (bus s)).

Definition store_P6DIR (v : Z) : drv unit := fun s =>
  (tt, mkState (P6SEL0 s) (uint8_t v) (P6OUT s) (CTLW0 s) (BRW s) (TXBUF s)
         (RXBUF s) (RDxBuffer s) (bus s)).

Definition store_P6OUT (v : Z) : drv unit := fun s =>
  (tt, mkState (P6SEL0 s) (P6DIR s) (uint8_t v) (CTLW0 s) (BRW s) (TXBUF s)
         (RXBUF s) (RDxBuffer s) (bus s ++ [GPIO (uint8_t v)])).

Definition store_CTLW0 (v : Z) : drv unit := fun s =>
  (tt, mkState (P6SEL0 s) (P6DIR s) (P6OUT s) (uint16_t v) (BRW s) (TXBUF s)
         (RXBUF s) (RDxBuffer s) (bus s)).

Definition store_BRW (v : Z) : drv unit := fun s =>
  (tt, mkState (P6SEL0 s) (P6DIR s) (P6OUT s) (CTLW0 s) (uint16_t v) (TXBUF s)
         (RXBUF s) (RDxBuffer s) (bus s)).

Definition store_RDxBuffer (v : Z) : drv unit := fun s =>
  (tt, mkState (P6SEL0 s) (P6DIR s) (P6OUT s) (CTLW0 s) (BRW s) (TXBUF s)
         (RXBUF s) (uint16_t v) (bus s)).

(** ** Reading the chip-select lines off a port value (active low) *)

Definition CSAG_low (p : Z) : bool := negb (Z.testbit p 0).
Definition CSM_low (p : Z) : bool := negb (Z.testbit p 1).

Definition idle (p : Z) : bool := negb (CSAG_low p) && negb (CSM_low p).
Definition exclusive (p : Z) : bool := negb (CSAG_low p && CSM_low p).

(** The line of [device], and only that line, is low. *)
Definition selects (device : ss_t) (p : Z) : bool :=
  match device with
  | AG => CSAG_low p && negb (CSM_low p)
  | M => CSM_low p && negb (CSAG_low p)
  | A | G => false
  end.

Definition port_of (e : event) : Z :=
  match e with
  | GPIO p => p
  | XFER p _ _ => p
  end.

(** Bytes clocked out, in order. *)
Fixpoint mosi (evs : list event) : list Z :=
  match evs with
  | [] => []
  | GPIO _ :: evs' => mosi evs'
  | XFER _ b _ :: evs' => b :: mosi evs'
  end.

(** Bytes clocked in, in order. *)
Fixpoint miso (evs : list event) : list Z :=
  match evs with
  | [] => []
  | GPIO _ :: evs' => miso evs'
  | XFER _ _ b :: evs' => b :: miso evs'
  end.

(** ** The driver *)

Section Driver.

(** The two sub-chips on the bus: given the log so far, the port value and
    the byte clocked out, the byte they drive back during that exchange. *)
Variable slave : list event -> Z -> Z -> Z.

(** [SPI_transfer]: store the byte in TXBUF, wait for the module to finish
    shifting (as bus master the module clocks the eight bits itself, so the
    busy flag clears), and return RXBUF as a [uint8_t]. *)
Definition SPI_transfer (data : Z) : drv Z := fun s =>
  let tx := uint8_t data in
  let rx := uint8_t (slave (bus s) (P6OUT s) tx) in
  (rx, mkState (P6SEL0 s) (P6DIR s) (P6OUT s) (CTLW0 s) (BRW s) tx rx
         (RDxBuffer s) (bus s ++ [XFER (P6OUT s) tx rx])).

Definition read_SPI (device : ss_t) (address bytesToRead : Z) : drv unit :=
  let address := uint8_t address in
  let bytesToRead := uint8_t bytesToRead in
  (if ss_t_eqb device AG then
     p <- load P6OUT ;;
     store_P6OUT (Z.land p (Z.land (Z.lnot BIT0) (Z.lnot BIT2))) ;;
     _ <- SPI_transfer (Z.lor address 0x80) ;;
     ret tt
   else if ss_t_eqb device M then
     p <- load P6OUT ;;
     store_P6OUT (Z.land p (Z.land (Z.lnot BIT1) (Z.lnot BIT2))) ;;
     _ <- SPI_transfer (Z.lor address 0xC0) ;;
     ret tt
   else ret tt) ;;
  b <- SPI_transfer 0 ;;
  store_RDxBuffer (Z.lor 0x0000 b) ;;
  (if bytesToRead =? 2 then
     b <- SPI_transfer 0 ;;
     r <- load RDxBuffer ;;
     store_RDxBuffer (Z.lor (Z.shiftl b 8) r)
   else ret tt) ;;
  (if ss_t_eqb device AG then
     p <- load P6OUT ;;
     store_P6OUT (Z.lor p (Z.lor BIT0 BIT2))
   else if ss_t_eqb device M then
     p <- load P6OUT ;;
     store_P6OUT (Z.lor p (Z.lor BIT1 BIT2))
   else ret tt).

Definition write_SPI (device : ss_t) (address data : Z) : drv unit :=
  let address := uint8_t address in
  let data := uint8_t data in
  (if ss_t_eqb device AG then
     p <- load P6OUT ;;
     store_P6OUT (Z.land p (Z.land (Z.lnot BIT0) (Z.lnot BIT2))) ;;
     _ <- SPI_transfer address ;;
     ret tt
   else if ss_t_eqb device M then
     p <- load P6OUT ;;
     store_P6OUT (Z.land p (Z.land (Z.lnot BIT1) (Z.lnot BIT2))) ;;
     _ <- SPI_transfer address ;;
     ret tt
   else ret tt) ;;
  _ <- SPI_transfer data ;;
  (if ss_t_eqb device AG then
     p <- load P6OUT ;;
     store_P6OUT (Z.lor p (Z.lor BIT0 BIT2))
   else if ss_t_eqb device M then
     p <- load P6OUT ;;
     store_P6OUT (Z.lor p (Z.lor BIT1 BIT2))
   else ret tt).

(** [LSM9DS1_Init] is straight-line code in three commented blocks, kept
    here as three definitions run in sequence. *)

(** The block under [// pin init]. *)
Definition pin_init : drv unit :=
  v <- load P6SEL0 ;;
  store_P6SEL0 (Z.lor v (Z.lor (Z.lor (Z.lor BIT2 BIT3) BIT4) BIT5)) ;;
  v <- load P6DIR ;;
  store_P6DIR (Z.lor v (Z.lor (Z.lor BIT0 BIT1) BIT2)) ;;
  v <- load P6OUT ;;
  store_P6OUT (Z.lor v (Z.lor (Z.lor BIT0 BIT1) BIT2)).

(** The block under [// UCB1 init]. *)
Definition UCB1_init : drv unit :=
  v <- load CTLW0 ;;
  store_CTLW0 (Z.lor v EUSCI_B_CTLW0_SWRST) ;;
  store_CTLW0
    (Z.lor (Z.lor (Z.lor (Z.lor (Z.lor (Z.lor (Z.lor
       EUSCI_B_CTLW0_SWRST
       EUSCI_B_CTLW0_MST)
       EUSCI_B_CTLW0_SYNC)
       EUSCI_B_CTLW0_MSB)
       EUSCI_B_CTLW0_MODE_1)
       EUSCI_B_CTLW0_STEM)
       EUSCI_B_CTLW0_CKPH)
       EUSCI_B_CTLW0_SSEL__ACLK) ;;
  store_BRW 1 ;;
  v <- load CTLW0 ;;
  store_CTLW0 (Z.land v (Z.lnot EUSCI_B_CTLW0_SWRST)).

(** The block under [// LSM init]. *)
Definition LSM_init : drv unit :=
  write_SPI AG CTRL_REG1_G 0x20 ;;
  write_SPI AG CTRL_REG6_XL 0x40 ;;
  write_SPI AG CTRL_REG5_XL 0x38 ;;
  write_SPI M CTRL_REG3_M 0x00 ;;
  write_SPI M CTRL_REG1_M 0x74 ;;
  write_SPI M CTRL_REG4_M 0x0C.

Definition LSM9DS1_Init : drv unit :=
  pin_init ;;
  UCB1_init ;;
  LSM_init.

Definition LSM9DS1_WHO_AM_I (device : ss_t) : drv Z :=
  read_SPI device WHO_AM_I 1 ;;
  r <- load RDxBuffer ;;
  ret (uint16_t r).

Definition LSM9DS1_TEST_CMD : drv Z :=
  read_SPI AG CTRL_REG5_XL 1 ;;
  r <- load RDxBuffer ;;
  ret (uint16_t r).

(** The accessors share one shape: a two-byte read, the cast of [RDxBuffer]
    to [int16_t], the scaling in [int] (the products stay far below 2^31) with
    C's division, which truncates toward zero ([Z.quot]), and the assignment
    of the quotient back to the [int16_t] local that is returned. *)
Definition LSM9DS1_XA : drv Z :=
  read_SPI AG OUT_X_L_XL 2 ;;
  r <- load RDxBuffer ;;
  let accelX := int16_t r in
  let accelX := int16_t (Z.quot (accelX * 61) 1000) in
  ret accelX.

Definition LSM9DS1_YA : drv Z :=
  read_SPI AG OUT_Y_L_XL 2 ;;
  r <- load RDxBuffer ;;
  let accelY := int16_t r in
  let accelY := int16_t (Z.quot (accelY * 61) 1000) in
  ret accelY.

Definition LSM9DS1_ZA : drv Z :=
  read_SPI AG OUT_Z_L_XL 2 ;;
  r <- load RDxBuffer ;;
  let accelZ := int16_t r in
  let accelZ := int16_t (Z.quot (accelZ * 61) 1000) in
  ret accelZ.

Definition LSM9DS1_XG : drv Z :=
  read_SPI AG OUT_X_L_G 2 ;;
  r <- load RDxBuffer ;;
  let gyroX := int16_t r in
  let gyroX := int16_t (Z.quot (gyroX * 875) 100) in
  ret gyroX.

Definition LSM9DS1_YG : drv Z :=
  read_SPI AG OUT_Y_L_G 2 ;;
  r <- load RDxBuffer ;;
  let gyroY := int16_t r in
  let gyroY := int16_t (Z.quot (gyroY * 875) 100) in
  ret gyroY.

Definition LSM9DS1_ZG : drv Z :=
  read_SPI AG OUT_Z_L_G 2 ;;
  r <- load RDxBuffer ;;
  let gyroZ := int16_t r in
  let gyroZ := int16_t (Z.quot (gyroZ * 875) 100) in
  ret gyroZ.

Definition LSM9DS1_XM : drv Z :=
  read_SPI M OUT_X_L_M 2 ;;
  r <- load RDxBuffer ;;
  let magX := int16_t r in
  let magX := int16_t (Z.quot (magX * 14) 100) in
  ret magX.

Definition LSM9DS1_YM : drv Z :=
  read_SPI M OUT_Y_L_M 2 ;;
  r <- load RDxBuffer ;;
  let magY := int16_t r in
  let magY := int16_t (Z.quot (magY * 14) 100) in
  ret magY.

Definition LSM9DS1_ZM : drv Z :=
  read_SPI M OUT_Z_L_M 2 ;;
  r <- load RDxBuffer ;;
  let magZ := int16_t r in
  let magZ := int16_t (Z.quot (magZ * 14) 100) in
  ret magZ.

Definition LSM9DS1_TMP : drv Z :=
  read_SPI AG OUT_TEMP_L 2 ;;
  r <- load RDxBuffer ;;
  let temp := int16_t r in
  let temp := int16_t (Z.quot (temp * 10) 16) in
  ret temp.

End Driver.

(** ** Test fixtures: simulated sub-chips and a start state *)

Definition count_xfer (evs : list event) : nat := length (mosi evs).

(** A simulated slave that answers the n-th exchange on the bus with the
    n-th byte of [replies] (0xFF, the idle level, once they run out). *)
Definition replay (replies : list Z) : list event -> Z -> Z -> Z :=
  fun history _ _ => nth (count_xfer history) replies 0xFF.

(** State at reset with both select lines already driven high. *)
Definition parked : state := mkState 0 0 0x07 1 0 0 0 0 [].

(** State at reset with the port latch cleared. *)
Definition cold : state := mkState 0 0 0 1 0 0 0 0 [].


(** Logic-analyser decoding: which sub-chip a port value addresses, and the
    grouping of the bytes clocked out into frames delimited by the select
    lines.  Bytes clocked while no single line is low belong to no frame. *)
Definition selected (p : Z) : option ss_t :=
  if selects AG p then Some AG else if selects M p then Some M else None.

Fixpoint frames (open : option (ss_t * list Z)) (evs : list event)
  : list (ss_t * list Z) :=
  match evs with
  | [] => match open with Some f => [f] | None => [] end
  | GPIO p :: evs' =>
      match open, selected p with
      | Some f, None => f :: frames None evs'
      | Some (d, bs), Some d' =>
          if ss_t_eqb d d' then frames open evs'
          else (d, bs) :: frames (Some (d', [])) evs'
      | None, Some d' => frames (Some (d', [])) evs'
      | None, None => frames None evs'
      end
  | XFER _ b _ :: evs' =>
      match open with
      | Some (d, bs) => frames (Some (d, bs ++ [b])) evs'
      | None => frames None evs'
      end
  end.

(** A frame is a write to register [reg] of [device]. *)
Definition addresses (device : ss_t) (reg : Z) (f : ss_t * list Z) : bool :=
  ss_t_eqb (fst f) device &&
  match snd f with
  | b :: _ => b =? reg
  | [] => false
  end.

(** ** Vocabulary of the statements *)

(** Masks applied to P6OUT around a transaction with [device]. *)
Definition assert_mask (device : ss_t) : Z :=
  match device with
  | AG => Z.land (Z.lnot BIT0) (Z.lnot BIT2)
  | M => Z.land (Z.lnot BIT1) (Z.lnot BIT2)
  | A | G => -1
  end.

Definition release_mask (device : ss_t) : Z :=
  match device with
  | AG => Z.lor BIT0 BIT2
  | M => Z.lor BIT1 BIT2
  | A | G => 0
  end.

(** The flag bits or-ed into the address byte of a read. *)
Definition read_flags (device : ss_t) : Z :=
  match device with
  | AG => 0x80
  | M => 0xC0
  | A | G => 0
  end.

(** The address phase clocks in one byte that the driver discards. *)
Definition address_phase (device : ss_t) : nat :=
  match device with
  | AG | M => 1
  | A | G => 0
  end.

(** An exchange made while the port holds [p]. *)
Definition exchange_at (p : Z) (e : event) : Prop :=
  exists b r, e = XFER p b r.

(** The events of one write transaction, as a logic analyser frames them. *)
Definition write_frame (device : ss_t) (address data : Z)
    (evs : list event) : Prop :=
  exists p1 p2 r0 r1,
    evs = [GPIO p1; XFER p1 address r0; XFER p1 data r1; GPIO p2] /\
    selects device p1 = true /\
    idle p2 = true.

(** The raw sample an accessor works on: [RDxBuffer] as left by its read,
    reinterpreted as [int16_t]. *)
Definition raw_sample {T : Type} (c : drv T) (s : state) : Z :=
  int16_t (RDxBuffer (exec c s)).

(** Calls a client can make after initialisation, as far as the bus is
    concerned (each typed accessor is one two-byte read). *)
Inductive call : Type :=
| call_read (device : ss_t) (address bytesToRead : Z)
| call_write (device : ss_t) (address data : Z).

Definition run_call (slave : list event -> Z -> Z -> Z) (c : call)
  : drv unit :=
  match c with
  | call_read device address bytesToRead =>
      read_SPI slave device address bytesToRead
  | call_write device address data => write_SPI slave device address data
  end.

(** The state after [LSM9DS1_Init] and then the calls, in order. *)
Definition session (slave : list event -> Z -> Z -> Z) (calls : list call)
    (s : state) : state :=
  fold_left (fun t c => exec (run_call slave c) t) calls
    (exec (LSM9DS1_Init slave) s).

(** The frame a call puts on the bus: none when the device value is neither
    AG nor M (no select line moves, so the exchanges belong to no frame). *)
Definition frame_of_call (c : call) : list (ss_t * list Z) :=
  match c with
  | call_read device address bytesToRead =>
      match device with
      | AG | M =>
          [ (device,
             uint8_t (Z.lor (uint8_t address) (read_flags device))
               :: 0 :: (if uint8_t bytesToRead =? 2 then [0] else [])) ]
      | A | G => []
      end
  | call_write device address data =>
      match device with
      | AG | M => [ (device, [uint8_t address; uint8_t data]) ]
      | A | G => []
      end
  end.

(** Events logged from power-up [s] to the end of a session. *)
Definition session_log (slave : list event -> Z -> Z -> Z)
    (calls : list call) (s : state) : list event :=
  skipn (length (bus s)) (bus (session slave calls s)).

(** At every logged event at most one select line is low. *)
Definition bus_exclusive (evs : list event) : Prop :=
  Forall (fun e => exclusive (port_of e) = true) evs.

(** The six frames of [LSM9DS1_Init]. *)
Definition init_frames : list (ss_t * list Z) :=
  [ (AG, [CTRL_REG1_G; 0x20]); (AG, [CTRL_REG6_XL; 0x40]);
    (AG, [CTRL_REG5_XL; 0x38]); (M, [CTRL_REG3_M; 0x00]);
    (M, [CTRL_REG1_M; 0x74]); (M, [CTRL_REG4_M; 0x0C]) ].

(** The typed accessors with the device and the register each one reads. *)
Definition accessors (slave : list event -> Z -> Z -> Z)
  : list (drv Z * (ss_t * Z)) :=
  [ (LSM9DS1_XA slave, (AG, OUT_X_L_XL)); (LSM9DS1_YA slave, (AG, OUT_Y_L_XL));
    (LSM9DS1_ZA slave, (AG, OUT_Z_L_XL)); (LSM9DS1_XG slave, (AG, OUT_X_L_G));
    (LSM9DS1_YG slave, (AG, OUT_Y_L_G)); (LSM9DS1_ZG slave, (AG, OUT_Z_L_G));
    (LSM9DS1_XM slave, (M, OUT_X_L_M)); (LSM9DS1_YM slave, (M, OUT_Y_L_M));
    (LSM9DS1_ZM slave, (M, OUT_Z_L_M)); (LSM9DS1_TMP slave, (AG, OUT_TEMP_L)) ].

(** * The application: final_main.c, the buzzer and the port set-up

    The application layer runs on a larger machine: the driver's state, a
    register file for the other peripherals it programs, the globals of
    final_main.c, and a log of what leaves the program besides the SPI bus
    (calls into the display, clock and interrupt libraries, which are not part
    of the sources, and stores to peripheral registers). *)

Module App.

Import String.

(** Peripheral registers named in final_main.c, piezo_buzzer.c and
    Init_Ports.c. *)
Inductive reg : Type :=
| P1DIR | P1REN | P1OUT | P1SEL0 | P1SEL1 | P1IE | P1IES | P1IFG
| P2DIR | P2OUT | P2SEL0 | P2SEL1
| P3DIR | P3OUT | P4DIR | P4OUT | P5DIR | P5OUT | P7DIR | P7OUT
| P9DIR | P9OUT
| NVIC_ISER1 | WDT_A_CTL
| TA0CTL | TA0CCTL1 | TA0CCR0 | TA0CCR1.

Definition reg_eq_dec (a b : reg) : {a = b} + {a <> b}.
Proof. decide equality. Defined.

(** Port registers are 8 bits wide, the timer and watchdog registers 16, the
    interrupt set-enable register 32. *)
Definition width (r : reg) : Z :=
  match r with
  | NVIC_ISER1 => 32
  | WDT_A_CTL | TA0CTL | TA0CCTL1 | TA0CCR0 | TA0CCR1 => 16
  | _ => 8
  end.

(** Calls into libraries outside the sources. *)
Inductive libcall : Type :=
| Clock_Init48MHz
| Clock_Delay1ms (n : Z)
| DisableInterrupts
| EnableInterrupts
| SSD1306_Init (vccstate : Z)
| SSD1306_ClearBuffer
| SSD1306_DisplayBuffer
| SSD1306_SetCursor (newX newY : Z)
| SSD1306_OutString (ptr : String.string)
| SSD1306_OutChar (letter : Z)
| SSD1306_OutSFix1 (n : Z).

Inductive action : Type :=
| Lib (c : libcall)
| Store (r : reg) (v : Z).

(** [enum states] of [main]. *)
Inductive states : Type :=
| ACCELEROMETER | GYROSCOPE | MAGNETOMETER | THERMOMETER.

Definition states_eqb (a b : states) : bool :=
  match a, b with
  | ACCELEROMETER, ACCELEROMETER | GYROSCOPE, GYROSCOPE
  | MAGNETOMETER, MAGNETOMETER | THERMOMETER, THERMOMETER => true
  | _, _ => false
  end.

Record app : Type := mkApp {
  spi : state;
  regs : reg -> Z;
  x : Z;
  y : Z;
  z : Z;
  wasInterrupt : bool;
  actions : list action
}.

Definition prog (T : Type) : Type := app -> T * app.

Definition pret {T : Type} (v : T) : prog T := fun a => (v, a).

Definition pbind {T U : Type} (c : prog T) (k : T -> prog U) : prog U :=
  fun a => let (v, a') := c a in k v a'.

Declare Scope prog_scope.
Delimit Scope prog_scope with prog.
Bind Scope prog_scope with prog.

Notation "v <- c1 ;; c2" := (pbind c1 (fun v => c2))
  (at level 61, c1 at next level, right associativity) : prog_scope.
Notation "c1 ;; c2" := (pbind c1 (fun _ => c2))
  (at level 61, right associativity) : prog_scope.

Local Open Scope prog_scope.

Definition pexec {T : Type} (c : prog T) (a : app) : app := snd (c a).
Definition presult {T : Type} (c : prog T) (a : app) : T := fst (c a).

(** Actions appended to the log by running [c] from [a]. *)
Definition performed {T : Type} (c : prog T) (a : app) : list action :=
  skipn (List.length (actions a)) (actions (pexec c a)).

(** A driver call, run on the driver's part of the machine. *)
Definition lift {T : Type} (c : drv T) : prog T := fun a =>
  let (v, s') := c (spi a) in
  (v, mkApp s' (regs a) (x a) (y a) (z a) (wasInterrupt a) (actions a)).

Definition extern (c : libcall) : prog unit := fun a =>
  (tt, mkApp (spi a) (regs a) (x a) (y a) (z a) (wasInterrupt a)
         (actions a ++ [Lib c])).

Definition rload (r : reg) : prog Z := fun a => (regs a r, a).

Definition rstore (r : reg) (v : Z) : prog unit := fun a =>
  let v := v mod 2 ^ width r in
  (tt, mkApp (spi a)
         (fun r' => if reg_eq_dec r r' then v else regs a r')
         (x a) (y a) (z a) (wasInterrupt a) (actions a ++ [Store r v])).

Definition get {T : Type} (field : app -> T) : prog T := fun a => (field a, a).

Definition set_x (v : Z) : prog unit := fun a =>
  (tt, mkApp (spi a) (regs a) (int16_t v) (y a) (z a) (wasInterrupt a)
         (actions a)).

Definition set_y (v : Z) : prog unit := fun a =>
  (tt, mkApp (spi a) (regs a) (x a) (int16_t v) (z a) (wasInterrupt a)
         (actions a)).

Definition set_z (v : Z) : prog unit := fun a =>
  (tt, mkApp (spi a) (regs a) (x a) (y a) (int16_t v) (wasInterrupt a)
         (actions a)).

Definition set_wasInterrupt (b : bool) : prog unit := fun a =>
  (tt, mkApp (spi a) (regs a) (x a) (y a) (z a) b (actions a)).

(** [#define CR 0x0D] of final_main.c and [#define HG 3408] of
    piezo_buzzer.h. *)
Definition CR : Z := 0x0D.
Definition HG : Z := 3408.

(** ** piezo_buzzer.c *)

Definition piezo_init : prog unit :=
  v <- rload TA0CTL ;; rstore TA0CTL (Z.lor v 0x0200) ;;
  v <- rload TA0CTL ;; rstore TA0CTL (Z.land v (Z.lnot 0x01F0)) ;;
  v <- rload TA0CCTL1 ;; rstore TA0CCTL1 (Z.lor v 0x00E0) ;;
  v <- rload P2DIR ;; rstore P2DIR (Z.lor v BIT4) ;;
  v <- rload P2OUT ;; rstore P2OUT (Z.land v (Z.lnot BIT4)) ;;
  v <- rload P2SEL1 ;; rstore P2SEL1 (Z.land v (Z.lnot BIT4)) ;;
  v <- rload P2SEL0 ;; rstore P2SEL0 (Z.lor v BIT4).

Definition play_note (note : Z) : prog unit :=
  let note := uint16_t note in
  rstore TA0CCR0 note ;;
  rstore TA0CCR1 (note / 2) ;;
  v <- rload TA0CTL ;; rstore TA0CTL (Z.lor v 0x0010) ;;
  extern (Clock_Delay1ms 50) ;;
  v <- rload TA0CTL ;; rstore TA0CTL (Z.land v (Z.lnot 0x0030)) ;;
  extern (Clock_Delay1ms 50).

(** ** Init_Ports.c

    The masks written as binary literals in the source are given in hex. *)

Definition Port1_Init : prog unit :=
  v <- rload P1DIR ;; rstore P1DIR (Z.land v 0xED) ;;
  v <- rload P1REN ;; rstore P1REN (Z.lor v 0x12) ;;
  v <- rload P1OUT ;; rstore P1OUT (Z.lor v 0x12).

Definition Port2_Init : prog unit :=
  v <- rload P2DIR ;; rstore P2DIR (Z.lor v 0xC0) ;;
  v <- rload P2OUT ;; rstore P2OUT (Z.land v (Z.lnot 0xC0)) ;;
  v <- rload P2SEL1 ;; rstore P2SEL1 (Z.land v (Z.lnot 0xC0)) ;;
  v <- rload P2SEL0 ;; rstore P2SEL0 (Z.lor v 0xC0).

Definition Port3_Init : prog unit :=
  v <- rload P3DIR ;; rstore P3DIR (Z.lor v 0xC0) ;;
  v <- rload P3OUT ;; rstore P3OUT (Z.land v (Z.lnot 0xC0)).

Definition Port4_Init : prog unit :=
  v <- rload P4DIR ;; rstore P4DIR (Z.lor v 0xFF) ;;
  v <- rload P4OUT ;; rstore P4OUT (Z.land v (Z.lnot 0xFF)).

Definition Port5_Init : prog unit :=
  v <- rload P5DIR ;; rstore P5DIR (Z.lor v 0x30) ;;
  v <- rload P5OUT ;; rstore P5OUT (Z.land v (Z.lnot 0x30)) ;;
  v <- rload P5DIR ;; rstore P5DIR (Z.lor v BIT3) ;;
  v <- rload P5OUT ;; rstore P5OUT (Z.land v (Z.lnot BIT3)).

Definition Port6_Init : prog unit := pret tt.

Definition Port7_Init : prog unit :=
  v <- rload P7DIR ;; rstore P7DIR (Z.lor v 0xFF) ;;
  v <- rload P7OUT ;; rstore P7OUT (Z.land v (Z.lnot 0xFF)).

Definition Port8_Init : prog unit := pret tt.

Definition Port9_Init : prog unit :=
  v <- rload P9DIR ;; rstore P9DIR (Z.lor v BIT2) ;;
  v <- rload P9OUT ;; rstore P9OUT (Z.land v (Z.lnot BIT2)).

Definition Port10_Init : prog unit := pret tt.

Definition PortJ_Init : prog unit := pret tt.

(** ** final_main.c *)

Definition PBInt_Init : prog unit :=
  v <- rload P1DIR ;; rstore P1DIR (Z.land v (Z.lnot BIT5)) ;;
  v <- rload P1REN ;; rstore P1REN (Z.lor v BIT5) ;;
  v <- rload P1OUT ;; rstore P1OUT (Z.lor v BIT5) ;;
  v <- rload P1SEL0 ;; rstore P1SEL0 (Z.land v (Z.lnot BIT5)) ;;
  v <- rload P1SEL1 ;; rstore P1SEL1 (Z.land v (Z.lnot BIT5)) ;;
  v <- rload P1IE ;; rstore P1IE (Z.lor v BIT5) ;;
  v <- rload P1IES ;; rstore P1IES (Z.lor v BIT5) ;;
  v <- rload NVIC_ISER1 ;; rstore NVIC_ISER1 (Z.lor v 0x008) ;;
  v <- rload P1IFG ;; rstore P1IFG (Z.land v (Z.lnot BIT5)) ;;
  extern EnableInterrupts.

Definition PORT1_IRQHandler : prog unit :=
  set_wasInterrupt true ;;
  v <- rload P1IFG ;; rstore P1IFG (Z.land v 0x00).

(** The set-up functions of Init_Ports.c, piezo_buzzer.c and final_main.c. *)
Definition setup : list (prog unit) :=
  [ Port1_Init; Port2_Init; Port3_Init; Port4_Init; Port5_Init; Port6_Init;
    Port7_Init; Port8_Init; Port9_Init; Port10_Init; PortJ_Init;
    PBInt_Init; piezo_init ].

Section Program.

Variable slave : list event -> Z -> Z -> Z.

(** Constants of msp.h and SSD1306.h, headers that are not among the
    sources: taken as parameters. *)
Variables WDT_A_CTL_PW WDT_A_CTL_HOLD SSD1306_SWITCHCAPVCC : Z.

(** The parameters are [int16_t]: arguments are converted on entry.  The
    unit suffix is chosen by the same if/else chain after each value. *)
Definition displayData (x y z : Z) (device : ss_t) : prog unit :=
  let x := int16_t x in
  let y := int16_t y in
  let z := int16_t z in
  extern (SSD1306_SetCursor 0 2) ;;
  extern (SSD1306_OutString "X Axis: ") ;;
  extern (SSD1306_OutSFix1 x) ;;
  (if ss_t_eqb device A then extern (SSD1306_OutString "G")
   else if ss_t_eqb device G then extern (SSD1306_OutString "dps")
   else if ss_t_eqb device M then extern (SSD1306_OutString "mGs")
   else extern (SSD1306_OutString " ")) ;;
  extern (SSD1306_OutChar CR) ;;
  extern (SSD1306_OutChar CR) ;;
  extern (SSD1306_OutString "Y Axis: ") ;;
  extern (SSD1306_OutSFix1 y) ;;
  (if ss_t_eqb device A then extern (SSD1306_OutString "G")
   else if ss_t_eqb device G then extern (SSD1306_OutString "dps")
   else if ss_t_eqb device M then extern (SSD1306_OutString "mGs")
   else extern (SSD1306_OutString " ")) ;;
  extern (SSD1306_OutChar CR) ;;
  extern (SSD1306_OutChar CR) ;;
  extern (SSD1306_OutString "Z Axis: ") ;;
  extern (SSD1306_OutSFix1 z) ;;
  (if ss_t_eqb device A then extern (SSD1306_OutString "G")
   else if ss_t_eqb device G then extern (SSD1306_OutString "dps")
   else if ss_t_eqb device M then extern (SSD1306_OutString "mGs")
   else extern (SSD1306_OutString " ")).

Definition getAccelData : prog unit :=
  v <- lift (LSM9DS1_XA slave) ;; set_x v ;;
  v <- lift (LSM9DS1_YA slave) ;; set_y v ;;
  v <- lift (LSM9DS1_ZA slave) ;; set_z v.

Definition getGyroData : prog unit :=
  v <- lift (LSM9DS1_XG slave) ;; set_x v ;;
  v <- lift (LSM9DS1_YG slave) ;; set_y v ;;
  v <- lift (LSM9DS1_ZG slave) ;; set_z v.

Definition getMagData : prog unit :=
  v <- lift (LSM9DS1_XM slave) ;; set_x v ;;
  v <- lift (LSM9DS1_YM slave) ;; set_y v ;;
  v <- lift (LSM9DS1_ZM slave) ;; set_z v.

Definition getTempData : prog unit :=
  v <- lift (LSM9DS1_TMP slave) ;; set_x v.


(** One pass through the body of [while(1)], from the locals [state] and
    [prevState] to their new values.  The [default] case of the switch is
    unreachable for the four values of the enum. *)
Definition loop_body (state prevState : states) : prog (states * states) :=
  let isNewState := negb (states_eqb state prevState) in
  let prevState := state in
  state <-
    match state with
    | ACCELEROMETER =>
        (if isNewState then
           extern SSD1306_ClearBuffer ;;
           extern SSD1306_DisplayBuffer ;;
           extern (SSD1306_SetCursor 0 0) ;;
           extern (SSD1306_OutString "Accelerometer") ;;
           play_note HG
         else pret tt) ;;
        getAccelData ;;
        xv <- get x ;; yv <- get y ;; zv <- get z ;;
        displayData (Z.quot xv 100) (Z.quot yv 100) (Z.quot zv 100) A ;;
        w <- get wasInterrupt ;;
        if w then set_wasInterrupt false ;; pret GYROSCOPE else pret state
    | GYROSCOPE =>
        (if isNewState then
           extern SSD1306_ClearBuffer ;;
           extern SSD1306_DisplayBuffer ;;
           extern (SSD1306_SetCursor 0 0) ;;
           extern (SSD1306_OutString "Gyroscope") ;;
           play_note HG
         else pret tt) ;;
        getGyroData ;;
        xv <- get x ;; yv <- get y ;; zv <- get z ;;
        displayData (Z.quot xv 100) (Z.quot yv 100) (Z.quot zv 100) G ;;
        w <- get wasInterrupt ;;
        if w then set_wasInterrupt false ;; pret MAGNETOMETER else pret state
    | MAGNETOMETER =>
        (if isNewState then
           extern SSD1306_ClearBuffer ;;
           extern SSD1306_DisplayBuffer ;;
           extern (SSD1306_SetCursor 0 0) ;;
           extern (SSD1306_OutString "Magnetometer") ;;
           play_note HG
         else pret tt) ;;
        getMagData ;;
        xv <- get x ;; yv <- get y ;; zv <- get z ;;
        displayData (xv * 10) (yv * 10) (zv * 10) M ;;
        w <- get wasInterrupt ;;
        if w then set_wasInterrupt false ;; pret THERMOMETER else pret state
    | THERMOMETER =>
        (if isNewState then
           extern SSD1306_ClearBuffer ;;
           extern SSD1306_DisplayBuffer ;;
           extern (SSD1306_SetCursor 0 0) ;;
           extern (SSD1306_OutString "Thermometer") ;;
           play_note HG
         else pret tt) ;;
        v <- lift (LSM9DS1_TMP slave) ;; set_x v ;;
        extern (SSD1306_SetCursor 0 2) ;;
        extern (SSD1306_OutString "Temperature: ") ;;
        xv <- get x ;;
        extern (SSD1306_OutSFix1 xv) ;;
        w <- get wasInterrupt ;;
        if w then set_wasInterrupt false ;; pret ACCELEROMETER else pret state
    end ;;
  extern (Clock_Delay1ms 100) ;;
  pret (state, prevState).

(** What happens while [main] runs its loop: a button interrupt is served
    ([press]) or the loop makes one pass ([turn]).  The handler only sets
    [wasInterrupt] and clears P1IFG, and a pass reads and clears
    [wasInterrupt] at a single point and never touches P1IFG, so an interrupt
    taken inside a pass has the effect of one taken just before or just
    after it. *)
Inductive tick : Type := press | turn.

Fixpoint main_loop (ticks : list tick) (state prevState : states)
  : prog (states * states) :=
  match ticks with
  | [] => pret (state, prevState)
  | press :: ticks' =>
      PORT1_IRQHandler ;; main_loop ticks' state prevState
  | turn :: ticks' =>
      sp <- loop_body state prevState ;;
      main_loop ticks' (fst sp) (snd sp)
  end.


End Program.

(** ** Vocabulary of the statements about the application *)

(** The view shown after the current one. *)
Definition advance (st : states) : states :=
  match st with
  | ACCELEROMETER => GYROSCOPE
  | GYROSCOPE => MAGNETOMETER
  | MAGNETOMETER => THERMOMETER
  | THERMOMETER => ACCELEROMETER
  end.

Definition title (st : states) : String.string :=
  match st with
  | ACCELEROMETER => "Accelerometer"
  | GYROSCOPE => "Gyroscope"
  | MAGNETOMETER => "Magnetometer"
  | THERMOMETER => "Thermometer"
  end.

(** The driver calls of one pass in a view. *)
Definition reads_of (st : states) : list call :=
  match st with
  | ACCELEROMETER =>
      [ call_read AG OUT_X_L_XL 2; call_read AG OUT_Y_L_XL 2;
        call_read AG OUT_Z_L_XL 2 ]
  | GYROSCOPE =>
      [ call_read AG OUT_X_L_G 2; call_read AG OUT_Y_L_G 2;
        call_read AG OUT_Z_L_G 2 ]
  | MAGNETOMETER =>
      [ call_read M OUT_X_L_M 2; call_read M OUT_Y_L_M 2;
        call_read M OUT_Z_L_M 2 ]
  | THERMOMETER => [ call_read AG OUT_TEMP_L 2 ]
  end.

(** The numbers handed to [SSD1306_OutSFix1], in order. *)
Fixpoint shown (acts : list action) : list Z :=
  match acts with
  | [] => []
  | Lib (SSD1306_OutSFix1 n) :: acts' => n :: shown acts'
  | _ :: acts' => shown acts'
  end.

(** The register stores among the actions, in order. *)
Fixpoint stores (acts : list action) : list (reg * Z) :=
  match acts with
  | [] => []
  | Store r v :: acts' => (r, v) :: stores acts'
  | Lib _ :: acts' => stores acts'
  end.

(** The library calls among the actions, in order. *)
Fixpoint libcalls (acts : list action) : list libcall :=
  match acts with
  | [] => []
  | Lib c :: acts' => c :: libcalls acts'
  | Store _ _ :: acts' => libcalls acts'
  end.

(** Fields of TA0CTL: the mode MC (bits 5-4; 0 stop, 1 up), the divider ID
    (bits 7-6) and the clock source TASSEL (bits 9-8; 2 is SMCLK). *)
Definition field2 (v lo : Z) : Z :=
  Z.b2z (Z.testbit v lo) + 2 * Z.b2z (Z.testbit v (lo + 1)).
Definition timer_mode (ta0ctl : Z) : Z := field2 ta0ctl 4.
Definition timer_divider (ta0ctl : Z) : Z := field2 ta0ctl 6.
Definition timer_source (ta0ctl : Z) : Z := field2 ta0ctl 8.

(** The unit printed after a value by [displayData]. *)
Definition suffix (device : ss_t) : String.string :=
  match device with
  | A => "G"
  | G => "dps"
  | M => "mGs"
  | AG => " "
  end.

(** What [displayData] sends to the display. *)
Definition data_lines (xv yv zv : Z) (device : ss_t) : list action :=
  [ Lib (SSD1306_SetCursor 0 2);
    Lib (SSD1306_OutString "X Axis: "); Lib (SSD1306_OutSFix1 (int16_t xv));
    Lib (SSD1306_OutString (suffix device));
    Lib (SSD1306_OutChar CR); Lib (SSD1306_OutChar CR);
    Lib (SSD1306_OutString "Y Axis: "); Lib (SSD1306_OutSFix1 (int16_t yv));
    Lib (SSD1306_OutString (suffix device));
    Lib (SSD1306_OutChar CR); Lib (SSD1306_OutChar CR);
    Lib (SSD1306_OutString "Z Axis: "); Lib (SSD1306_OutSFix1 (int16_t zv));
    Lib (SSD1306_OutString (suffix device)) ].

(** The two values [play_note] stores in TA0CTL, from the value it finds. *)
Definition beep_on (ta0ctl : Z) : Z := Z.lor ta0ctl 0x0010 mod 2 ^ 16.
Definition beep_off (ta0ctl : Z) : Z :=
  Z.land (beep_on ta0ctl) (Z.lnot 0x0030) mod 2 ^ 16.

(** What [play_note] does, as seen from outside. *)
Definition beep (note ta0ctl : Z) : list action :=
  [ Store TA0CCR0 (uint16_t note mod 2 ^ 16);
    Store TA0CCR1 (uint16_t note / 2 mod 2 ^ 16);
    Store TA0CTL (beep_on ta0ctl);
    Lib (Clock_Delay1ms 50);
    Store TA0CTL (beep_off ta0ctl);
    Lib (Clock_Delay1ms 50) ].

(** Entry housekeeping of a view: clear, title, beep. *)
Definition entry_actions (st : states) (ta0ctl : Z) : list action :=
  [ Lib SSD1306_ClearBuffer; Lib SSD1306_DisplayBuffer;
    Lib (SSD1306_SetCursor 0 0); Lib (SSD1306_OutString (title st)) ]
  ++ beep HG ta0ctl.

(** What one pass shows of the readings [xv], [yv], [zv] held in the
    globals. *)
Definition view_actions (st : states) (xv yv zv : Z) : list action :=
  match st with
  | ACCELEROMETER =>
      data_lines (Z.quot xv 100) (Z.quot yv 100) (Z.quot zv 100) A
  | GYROSCOPE =>
      data_lines (Z.quot xv 100) (Z.quot yv 100) (Z.quot zv 100) G
  | MAGNETOMETER => data_lines (xv * 10) (yv * 10) (zv * 10) M
  | THERMOMETER =>
      [ Lib (SSD1306_SetCursor 0 2);
        Lib (SSD1306_OutString "Temperature: ");
        Lib (SSD1306_OutSFix1 xv) ]
  end.

(** The state of the driver's machine after the reads of one pass. *)
Definition after_reads (slave : list event -> Z -> Z -> Z) (st : states)
    (s : state) : state :=
  fold_left (fun u c => exec (run_call slave c) u) (reads_of st) s.


(** A program that returns nothing, acts on the driver's machine as [f]
    does, and touches neither the globals nor the interrupt flag. *)
Definition frame_only (p : prog unit) (f : state -> state) : Prop :=
  forall a,
    p a
    = (tt,
       mkApp (f (spi a)) (regs (pexec p a)) (x a) (y a) (z a)
         (wasInterrupt a) (actions (pexec p a))).

(** A machine at power-up for examples: all registers zero. *)
Definition power_up : app :=
  mkApp cold (fun _ => 0) 0 0 0 false [].

End App.

(** * Properties *)

(** ** Integer conversions and bit masks *)

Lemma uint8_t_range (x : Z) : 0 <= uint8_t x < 256.
Proof. unfold uint8_t. apply Z.mod_pos_bound. lia. Qed.

Lemma uint8_t_small (x : Z) : 0 <= x < 256 -> uint8_t x = x.
Proof. intros H. unfold uint8_t. apply Z.mod_small. exact H. Qed.

Lemma uint8_t_idem (x : Z) : uint8_t (uint8_t x) = uint8_t x.
Proof. apply uint8_t_small, uint8_t_range. Qed.

Lemma uint16_t_small (x : Z) : 0 <= x < 65536 -> uint16_t x = x.
Proof. intros H. unfold uint16_t. apply Z.mod_small. exact H. Qed.

Lemma uint8_t_bits (x n : Z) :
  0 <= n < 8 -> Z.testbit (uint8_t x) n = Z.testbit x n.
Proof.
  intros H. unfold uint8_t. change 256 with (2 ^ 8).
  apply Z.mod_pow2_bits_low. lia.
Qed.

Lemma uint8_t_land_255 (x : Z) : uint8_t x = Z.land x 255.
Proof.
  unfold uint8_t. change 256 with (2 ^ 8). change 255 with (Z.ones 8).
  symmetry. apply Z.land_ones. lia.
Qed.

(** Or-ing flag bits into a byte leaves a byte. *)
Lemma uint8_t_lor_flag (a f : Z) :
  0 <= a < 256 -> 0 <= f < 256 -> uint8_t (Z.lor a f) = Z.lor a f.
Proof.
  intros Ha Hf. rewrite uint8_t_land_255, Z.land_lor_distr_l.
  rewrite <- !uint8_t_land_255, !uint8_t_small by assumption. reflexivity.
Qed.

(** A byte shifted into the high half and or-ed with a byte is their
    little-endian combination. *)
Lemma lor_shiftl_bytes (hi lo : Z) :
  0 <= lo < 256 -> Z.lor (Z.shiftl hi 8) lo = lo + 256 * hi.
Proof.
  intros Hlo.
  assert (Hdisj : Z.land (Z.shiftl hi 8) lo = 0).
  { apply Z.bits_inj'. intros n Hn.
    rewrite Z.land_spec, Z.bits_0.
    destruct (Z.ltb_spec n 8) as [Hlt | Hge].
    - rewrite Z.shiftl_spec_low by lia. reflexivity.
    - rewrite <- (uint8_t_small lo Hlo). unfold uint8_t.
      change 256 with (2 ^ 8).
      rewrite Z.mod_pow2_bits_high by lia. apply andb_false_r. }
  rewrite <- Z.lxor_lor by exact Hdisj.
  rewrite <- Z.add_nocarry_lxor by exact Hdisj.
  rewrite Z.shiftl_mul_pow2 by lia. change (2 ^ 8) with 256. lia.
Qed.

Lemma int16_t_range (x : Z) : -32768 <= int16_t x <= 32767.
Proof.
  unfold int16_t.
  pose proof (Z.mod_pos_bound (x + 32768) 65536 ltac:(lia)). lia.
Qed.

Lemma int16_t_small (x : Z) : -32768 <= x <= 32767 -> int16_t x = x.
Proof.
  intros H. unfold int16_t. rewrite Z.mod_small by lia. lia.
Qed.

(** ** The select lines under the driver's port updates *)

Ltac port_bits :=
  unfold idle, exclusive, selects, CSAG_low, CSM_low,
    assert_mask, release_mask, BIT0, BIT1, BIT2 in *;
  rewrite ?uint8_t_bits by lia;
  rewrite ?Z.land_spec, ?Z.lor_spec;
  repeat match goal with
  | |- context [Z.testbit ?c ?n] =>
      lazymatch c with
      | context [Z.lnot] => idtac
      | Z.lor (Zpos _) (Zpos _) => idtac
      | Z.lor (Z.lor (Zpos _) (Zpos _)) (Zpos _) => idtac
      end;
      let b := eval vm_compute in (Z.testbit c n) in
      change (Z.testbit c n) with b
  end.

Lemma select_exclusive (device : ss_t) (p : Z) :
  selects device p = true -> exclusive p = true.
Proof.
  destruct device; unfold selects, exclusive; try discriminate;
    destruct (CSAG_low p), (CSM_low p); simpl; congruence.
Qed.

Lemma idle_exclusive (p : Z) : idle p = true -> exclusive p = true.
Proof.
  unfold idle, exclusive. destruct (CSAG_low p), (CSM_low p); simpl; congruence.
Qed.

Lemma assert_selects (device : ss_t) (p : Z) :
  device = AG \/ device = M ->
  idle p = true ->
  selects device (uint8_t (Z.land p (assert_mask device))) = true.
Proof.
  intros [-> | ->] Hidle; port_bits.
  all: destruct (Z.testbit p 0), (Z.testbit p 1); simpl in *; congruence.
Qed.

Lemma release_idle (device : ss_t) (p : Z) :
  selects device p = true ->
  idle (uint8_t (Z.lor p (release_mask device))) = true.
Proof.
  destruct device; intros Hsel; try discriminate; port_bits.
  all: destruct (Z.testbit p 0), (Z.testbit p 1); simpl in *; congruence.
Qed.

Lemma park_idle (p : Z) :
  idle (uint8_t (Z.lor p (Z.lor (Z.lor BIT0 BIT1) BIT2))) = true.
Proof.
  port_bits. rewrite !orb_true_r. reflexivity.
Qed.

(** ** Running the monad *)

Lemma bind_run {T U : Type} (c : drv T) (k : T -> drv U) (s : state) :
  bind c k s = k (result c s) (exec c s).
Proof. unfold bind, result, exec. destruct (c s). reflexivity. Qed.

Lemma exec_bind {T U : Type} (c : drv T) (k : T -> drv U) (s : state) :
  exec (bind c k) s = exec (k (result c s)) (exec c s).
Proof. unfold exec at 1. rewrite bind_run. reflexivity. Qed.

Lemma result_bind {T U : Type} (c : drv T) (k : T -> drv U) (s : state) :
  result (bind c k) s = result (k (result c s)) (exec c s).
Proof. unfold result at 1. rewrite bind_run. reflexivity. Qed.

Lemma emitted_app {T : Type} (c : drv T) (s : state) (evs : list event) :
  bus (exec c s) = bus s ++ evs -> emitted c s = evs.
Proof.
  intros H. unfold emitted. rewrite H.
  rewrite skipn_app, skipn_all, Nat.sub_diag. reflexivity.
Qed.

(** ** What one transaction does to the machine *)

Ltac byte_ranges :=
  repeat match goal with
  | |- context [uint8_t ?x] =>
      lazymatch goal with
      | _ : 0 <= uint8_t x < 256 |- _ => fail
      | _ => pose proof (uint8_t_range x)
      end
  end.

Section Transactions.

Variable slave : list event -> Z -> Z -> Z.

Ltac run_driver :=
  cbv - [uint8_t uint16_t Z.land Z.lor Z.lnot Z.shiftl Z.eqb Z.add Z.mul
         Z.le Z.lt app slave BIT0 BIT1 BIT2];
  repeat match goal with
  | H : (_ =? _) = _ |- _ => rewrite H
  end;
  cbv beta iota;
  repeat rewrite <- app_assoc; cbn [app].

(** A read addressed to AG or M: the port goes to [p1], the address byte
    with its flags and one or two dummy bytes are exchanged there, the port
    goes to [p2]; [RDxBuffer] is assembled from the bytes clocked in during
    the dummy exchanges. *)
Lemma read_SPI_selected (device : ss_t) (address bytesToRead : Z) (s : state) :
  device = AG \/ device = M ->
  exists r0 lo hi,
    let p1 := uint8_t (Z.land (P6OUT s) (assert_mask device)) in
    let p2 := uint8_t (Z.lor p1 (release_mask device)) in
    let s' := exec (read_SPI slave device address bytesToRead) s in
    bus s' =
      bus s ++
      GPIO p1
        :: XFER p1 (uint8_t (Z.lor (uint8_t address) (read_flags device))) r0
        :: XFER p1 0 lo
        :: (if uint8_t bytesToRead =? 2 then [XFER p1 0 hi] else [])
        ++ [GPIO p2] /\
    P6OUT s' = p2 /\
    0 <= lo < 256 /\ 0 <= hi < 256 /\
    RDxBuffer s' =
      if uint8_t bytesToRead =? 2 then lo + 256 * hi else lo.
Proof.
  intros Hdev. destruct s as [sel dir out ctl brw tx rx rd log].
  destruct (uint8_t bytesToRead =? 2) eqn:Hn.
  - destruct Hdev as [-> | ->];
      run_driver; do 3 eexists;
      (split; [ reflexivity | ]);
      (split; [ reflexivity | ]);
      (split; [ apply uint8_t_range | ]);
      (split; [ apply uint8_t_range | ]);
      rewrite Z.lor_0_l;
      rewrite (uint16_t_small (uint8_t _)) by (byte_ranges; lia);
      rewrite lor_shiftl_bytes by apply uint8_t_range;
      apply uint16_t_small; byte_ranges; lia.
  - destruct Hdev as [-> | ->];
      run_driver; do 2 eexists; exists 0;
      (split; [ reflexivity | ]);
      (split; [ reflexivity | ]);
      (split; [ apply uint8_t_range | ]);
      (split; [ apply (uint8_t_range 0) | ]);
      rewrite Z.lor_0_l; apply uint16_t_small; byte_ranges; lia.
Qed.

(** A write addressed to AG or M: select, address byte, data byte,
    release. *)
Lemma write_SPI_selected (device : ss_t) (address data : Z) (s : state) :
  device = AG \/ device = M ->
  exists r0 r1,
    let p1 := uint8_t (Z.land (P6OUT s) (assert_mask device)) in
    let p2 := uint8_t (Z.lor p1 (release_mask device)) in
    let s' := exec (write_SPI slave device address data) s in
    bus s' =
      bus s ++
      [GPIO p1; XFER p1 (uint8_t address) r0; XFER p1 (uint8_t data) r1;
       GPIO p2] /\
    P6OUT s' = p2.
Proof.
  intros Hdev. destruct s as [sel dir out ctl brw tx rx rd log].
  destruct Hdev as [-> | ->]; run_driver; rewrite !uint8_t_idem;
    do 2 eexists; split; reflexivity.
Qed.

(** A read with a device value that is neither AG nor M: only the dummy
    exchanges take place, at whatever the port happens to hold. *)
Lemma read_SPI_unselected (device : ss_t) (address bytesToRead : Z)
    (s : state) :
  device = A \/ device = G ->
  let p := P6OUT s in
  let lo := uint8_t (slave (bus s) p 0) in
  let hi := uint8_t (slave (bus s ++ [XFER p 0 lo]) p 0) in
  let s' := exec (read_SPI slave device address bytesToRead) s in
  bus s' =
    bus s ++
    XFER p 0 lo :: (if uint8_t bytesToRead =? 2 then [XFER p 0 hi] else []) /\
  P6OUT s' = p /\
  RDxBuffer s' = if uint8_t bytesToRead =? 2 then lo + 256 * hi else lo.
Proof.
  intros Hdev. destruct s as [sel dir out ctl brw tx rx rd log].
  destruct (uint8_t bytesToRead =? 2) eqn:Hn.
  - destruct Hdev as [-> | ->]; run_driver;
      (split; [ reflexivity | ]);
      (split; [ reflexivity | ]);
      rewrite Z.lor_0_l;
      rewrite (uint16_t_small (uint8_t _)) by (byte_ranges; lia);
      rewrite lor_shiftl_bytes by apply uint8_t_range;
      apply uint16_t_small; byte_ranges; lia.
  - destruct Hdev as [-> | ->]; run_driver;
      (split; [ reflexivity | ]);
      (split; [ reflexivity | ]);
      rewrite Z.lor_0_l; apply uint16_t_small; byte_ranges; lia.
Qed.

(** A write with a device value that is neither AG nor M: the data byte
    alone is clocked out. *)
Lemma write_SPI_unselected (device : ss_t) (address data : Z) (s : state) :
  device = A \/ device = G ->
  let p := P6OUT s in
  let s' := exec (write_SPI slave device address data) s in
  bus s' = bus s ++ [XFER p (uint8_t data) (uint8_t (slave (bus s) p (uint8_t data)))] /\
  P6OUT s' = p.
Proof.
  intros Hdev. destruct s as [sel dir out ctl brw tx rx rd log].
  destruct Hdev as [-> | ->]; run_driver; rewrite !uint8_t_idem;
    split; reflexivity.
Qed.

End Transactions.

Lemma testbit_7_small (a : Z) : 0 <= a < 128 -> Z.testbit a 7 = false.
Proof.
  intros Ha. rewrite <- (Z.mod_small a (2 ^ 7)) by (change (2 ^ 7) with 128; lia).
  apply Z.mod_pow2_bits_high. lia.
Qed.

Lemma LSM9DS1_WHO_AM_I_result slave (device : ss_t) (s : state) :
  result (LSM9DS1_WHO_AM_I slave device) s =
  uint16_t (RDxBuffer (exec (read_SPI slave device WHO_AM_I 1) s)).
Proof. unfold LSM9DS1_WHO_AM_I. rewrite result_bind. reflexivity. Qed.

Lemma LSM9DS1_WHO_AM_I_exec slave (device : ss_t) (s : state) :
  exec (LSM9DS1_WHO_AM_I slave device) s =
  exec (read_SPI slave device WHO_AM_I 1) s.
Proof. unfold LSM9DS1_WHO_AM_I. rewrite exec_bind. reflexivity. Qed.

(** ** Read framing *)

(** C1 (as amended): for a 7-bit register address A, the first byte
    transmitted during a read is [A | 0x80] when the device is AG and
    [A | 0xC0] when it is M; in both cases its most-significant bit, the read
    flag, is set. *)
Theorem read_SPI_address_byte slave (device : ss_t) (address bytesToRead : Z)
    (s : state) :
  device = AG \/ device = M ->
  0 <= address < 128 ->
  exists b,
    hd_error (mosi (emitted (read_SPI slave device address bytesToRead) s))
      = Some b /\
    b = match device with
        | AG => Z.lor address 0x80
        | _ => Z.lor address 0xC0
        end /\
    Z.testbit b 7 = true.
Proof.
  intros Hdev Ha.
  destruct (read_SPI_selected slave device address bytesToRead s Hdev)
    as (r0 & lo & hi & Hbus & _).
  cbv zeta in Hbus. rewrite (emitted_app _ _ _ Hbus). cbn [mosi hd_error].
  eexists. split; [ reflexivity | ].
  rewrite (uint8_t_small address) by lia.
  assert (Hflag : uint8_t (Z.lor address (read_flags device)) =
                  Z.lor address (read_flags device)).
  { apply uint8_t_lor_flag; [ lia | destruct Hdev as [-> | ->]; simpl; lia ]. }
  rewrite Hflag.
  destruct Hdev as [-> | ->]; cbn [read_flags]; split; try reflexivity;
    rewrite Z.lor_spec; apply orb_true_r.
Qed.

Lemma read_SPI_address_byte_witness :
  exists b,
    hd_error (mosi (emitted (read_SPI (replay []) M OUT_X_L_M 2) parked))
      = Some b /\
    b = Z.lor OUT_X_L_M 0xC0 /\
    Z.testbit b 7 = true.
Proof.
  apply (read_SPI_address_byte (replay []) M OUT_X_L_M 2 parked).
  - right. reflexivity.
  - unfold OUT_X_L_M. lia.
Defined.

(** C1 (as stated) fails on the magnetometer: reading OUT_X_L_M (0x28) puts
    0xE8 on the wire first, not [0x28 | 0x80] = 0xA8. *)
Lemma read_SPI_M_flag_counterexample :
  hd_error (mosi (emitted (read_SPI (replay []) M OUT_X_L_M 2) parked))
    = Some 0xE8 /\
  hd_error (mosi (emitted (read_SPI (replay []) M OUT_X_L_M 2) parked))
    <> Some (Z.lor OUT_X_L_M 0x80).
Proof.
  split; [ reflexivity | ]. vm_compute. discriminate.
Qed.

(** ** Assembly of the raw value *)

(** C2: a two-byte read assembles [RDxBuffer] little-endian.  Past the byte
    clocked in during the address phase, the first byte the transport returns
    is the low byte and the second the high byte; with a simulated device
    answering 0x34 then 0x12 the raw value is 0x1234. *)
Theorem read_SPI_little_endian :
  (forall slave (device : ss_t) (address : Z) (s : state),
     exists skipped lo hi,
       miso (emitted (read_SPI slave device address 2) s)
         = skipped ++ [lo; hi] /\
       length skipped = address_phase device /\
       let raw := RDxBuffer (exec (read_SPI slave device address 2) s) in
       raw = lo + 256 * hi /\ raw mod 256 = lo /\ raw / 256 = hi) /\
  RDxBuffer (exec (read_SPI (replay [0x00; 0x34; 0x12]) AG OUT_X_L_XL 2) parked)
    = 0x1234 /\
  RDxBuffer (exec (read_SPI (replay [0x00; 0x34; 0x12]) M OUT_X_L_M 2) parked)
    = 0x1234.
Proof.
  split; [ | split; reflexivity ].
  intros slave device address s.
  assert (Hsplit : forall lo hi raw, 0 <= lo < 256 -> 0 <= hi < 256 ->
            raw = lo + 256 * hi ->
            raw = lo + 256 * hi /\ raw mod 256 = lo /\ raw / 256 = hi).
  { intros lo hi raw Hlo Hhi ->. split; [ reflexivity | ]. split.
    - rewrite Z.mul_comm, Z.mod_add by lia. apply Z.mod_small. lia.
    - rewrite Z.mul_comm, Z.div_add by lia. rewrite Z.div_small by lia. lia. }
  assert (Hdev : (device = AG \/ device = M) \/ (device = A \/ device = G))
    by (destruct device; auto).
  destruct Hdev as [Hdev | Hdev].
  - destruct (read_SPI_selected slave device address 2 s Hdev)
      as (r0 & lo & hi & Hbus & _ & Hlo & Hhi & Hraw).
    cbv zeta in Hbus, Hraw. change (uint8_t 2 =? 2) with true in Hbus, Hraw.
    rewrite (emitted_app _ _ _ Hbus). exists [r0], lo, hi.
    split; [ reflexivity | ].
    split; [ destruct Hdev as [-> | ->]; reflexivity | ].
    cbv zeta. apply Hsplit; assumption.
  - destruct (read_SPI_unselected slave device address 2 s Hdev)
      as (Hbus & _ & Hraw).
    change (uint8_t 2 =? 2) with true in Hbus, Hraw.
    cbv zeta in Hbus, Hraw. cbv iota in Hbus, Hraw.
    rewrite (emitted_app _ _ _ Hbus). exists []. do 2 eexists.
    split; [ reflexivity | ].
    split; [ destruct Hdev as [-> | ->]; reflexivity | ].
    cbv zeta. apply Hsplit; try assumption; apply uint8_t_range.
Qed.

(** C10: after a one-byte read (bytesToRead other than 2) the high byte of
    [RDxBuffer] is zero, so the value is at most 0xFF, and
    [LSM9DS1_WHO_AM_I] returns a value in 0..255. *)
Theorem one_byte_read_high_zero slave (device : ss_t)
    (address bytesToRead : Z) (s : state) :
  0 <= bytesToRead < 256 ->
  bytesToRead <> 2 ->
  0 <= RDxBuffer (exec (read_SPI slave device address bytesToRead) s) <= 0xFF /\
  RDxBuffer (exec (read_SPI slave device address bytesToRead) s) / 256 = 0 /\
  0 <= result (LSM9DS1_WHO_AM_I slave device) s <= 0xFF.
Proof.
  intros Hrange Hne.
  assert (Hone : forall dev a n t, (uint8_t n =? 2) = false ->
            0 <= RDxBuffer (exec (read_SPI slave dev a n) t) <= 0xFF).
  { intros dev a n t Hn.
    assert (Hdev : (dev = AG \/ dev = M) \/ (dev = A \/ dev = G))
      by (destruct dev; auto).
    destruct Hdev as [Hdev | Hdev].
    - destruct (read_SPI_selected slave dev a n t Hdev)
        as (r0 & lo & hi & _ & _ & Hlo & _ & Hraw).
      cbv zeta in Hraw. rewrite Hn in Hraw. lia.
    - destruct (read_SPI_unselected slave dev a n t Hdev) as (_ & _ & Hraw).
      cbv zeta in Hraw. rewrite Hn in Hraw. rewrite Hraw.
      byte_ranges. lia. }
  assert (Hn : (uint8_t bytesToRead =? 2) = false).
  { rewrite uint8_t_small by exact Hrange. apply Z.eqb_neq. exact Hne. }
  pose proof (Hone device address bytesToRead s Hn) as H1.
  pose proof (Hone device WHO_AM_I 1 s eq_refl) as H2.
  split; [ exact H1 | ]. split; [ apply Z.div_small; lia | ].
  rewrite LSM9DS1_WHO_AM_I_result, uint16_t_small by lia. exact H2.
Qed.

Lemma one_byte_read_high_zero_witness :
  0 <= RDxBuffer (exec (read_SPI (replay [0x00; 0x68]) AG WHO_AM_I 1) cold)
    <= 0xFF /\
  RDxBuffer (exec (read_SPI (replay [0x00; 0x68]) AG WHO_AM_I 1) cold) / 256
    = 0 /\
  0 <= result (LSM9DS1_WHO_AM_I (replay [0x00; 0x68]) AG) cold <= 0xFF.
Proof.
  apply (one_byte_read_high_zero (replay [0x00; 0x68]) AG WHO_AM_I 1 cold).
  - lia.
  - discriminate.
Defined.

(** ** Write framing *)

(** C6: a write to AG or M of data byte d at 7-bit address A transmits
    exactly two bytes: A, whose most-significant (read-flag) bit is 0, then
    d. *)
Theorem write_SPI_framing slave (device : ss_t) (address data : Z)
    (s : state) :
  device = AG \/ device = M ->
  0 <= address < 128 ->
  0 <= data < 256 ->
  mosi (emitted (write_SPI slave device address data) s) = [address; data] /\
  Z.testbit address 7 = false.
Proof.
  intros Hdev Ha Hd.
  destruct (write_SPI_selected slave device address data s Hdev)
    as (r0 & r1 & Hbus & _).
  cbv zeta in Hbus. rewrite (emitted_app _ _ _ Hbus). cbn [mosi].
  rewrite !uint8_t_small by lia.
  split; [ reflexivity | apply testbit_7_small; exact Ha ].
Qed.

Lemma write_SPI_framing_witness :
  mosi (emitted (write_SPI (replay []) M CTRL_REG1_M 0x74) parked)
    = [CTRL_REG1_M; 0x74] /\
  Z.testbit CTRL_REG1_M 7 = false.
Proof.
  apply (write_SPI_framing (replay []) M CTRL_REG1_M 0x74 parked).
  - right. reflexivity.
  - unfold CTRL_REG1_M. lia.
  - lia.
Defined.

(** ** Device values outside {AG, M} *)

(** C9: with a device value other than AG and M (the enum also has A and
    G), [read_SPI] and [write_SPI] leave P6OUT alone and drive no select
    line; no address byte is sent.  [read_SPI] still performs its dummy
    exchanges and overwrites [RDxBuffer] with what they clock in, so
    [LSM9DS1_WHO_AM_I] returns the byte clocked in by its single dummy
    exchange rather than an error value. *)
Theorem unselected_device slave (device : ss_t) (address bytesToRead data : Z)
    (s : state) :
  device = A \/ device = G ->
  let p := P6OUT s in
  let lo := uint8_t (slave (bus s) p 0) in
  let hi := uint8_t (slave (bus s ++ [XFER p 0 lo]) p 0) in
  let two := uint8_t bytesToRead =? 2 in
  let rd := exec (read_SPI slave device address bytesToRead) s in
  let wr := exec (write_SPI slave device address data) s in
  (* read_SPI *)
  P6OUT rd = p /\
  emitted (read_SPI slave device address bytesToRead) s
    = XFER p 0 lo :: (if two then [XFER p 0 hi] else []) /\
  RDxBuffer rd = (if two then lo + 256 * hi else lo) /\
  (* write_SPI *)
  P6OUT wr = p /\
  emitted (write_SPI slave device address data) s
    = [XFER p (uint8_t data) (uint8_t (slave (bus s) p (uint8_t data)))] /\
  mosi (emitted (write_SPI slave device address data) s) = [uint8_t data] /\
  (* LSM9DS1_WHO_AM_I *)
  emitted (LSM9DS1_WHO_AM_I slave device) s = [XFER p 0 lo] /\
  result (LSM9DS1_WHO_AM_I slave device) s = lo.
Proof.
  intros Hdev. cbv zeta.
  destruct (read_SPI_unselected slave device address bytesToRead s Hdev)
    as (Hbus & Hport & Hraw).
  destruct (write_SPI_unselected slave device address data s Hdev)
    as (Hwbus & Hwport).
  destruct (read_SPI_unselected slave device WHO_AM_I 1 s Hdev)
    as (Hibus & _ & Hiraw).
  cbv zeta in *.
  change (uint8_t 1 =? 2) with false in Hibus, Hiraw. cbv iota in Hibus, Hiraw.
  repeat split.
  - exact Hport.
  - apply emitted_app. exact Hbus.
  - exact Hraw.
  - exact Hwport.
  - apply emitted_app. exact Hwbus.
  - rewrite (emitted_app _ _ _ Hwbus). reflexivity.
  - apply emitted_app. rewrite LSM9DS1_WHO_AM_I_exec. exact Hibus.
  - rewrite LSM9DS1_WHO_AM_I_result, Hiraw.
    apply uint16_t_small. byte_ranges. lia.
Qed.

Lemma unselected_device_witness :
  let slave := replay [0x5A; 0xC3] in
  P6OUT (exec (read_SPI slave G WHO_AM_I 2) parked) = 0x07 /\
  emitted (read_SPI slave G WHO_AM_I 2) parked
    = [XFER 0x07 0 0x5A; XFER 0x07 0 0xC3] /\
  RDxBuffer (exec (read_SPI slave G WHO_AM_I 2) parked) = 0xC35A /\
  P6OUT (exec (write_SPI slave G WHO_AM_I 0x44) parked) = 0x07 /\
  emitted (write_SPI slave G WHO_AM_I 0x44) parked = [XFER 0x07 0x44 0x5A] /\
  mosi (emitted (write_SPI slave G WHO_AM_I 0x44) parked) = [0x44] /\
  emitted (LSM9DS1_WHO_AM_I slave G) parked = [XFER 0x07 0 0x5A] /\
  result (LSM9DS1_WHO_AM_I slave G) parked = 0x5A.
Proof.
  apply (unselected_device (replay [0x5A; 0xC3]) G WHO_AM_I 2 0x44 parked).
  right. reflexivity.
Defined.

(** ** Chip-select sequencing *)

(** C5: starting with both select lines high (as [LSM9DS1_Init] parks them
    and as every transaction leaves them), at every event of a read or write
    transaction at most one of CSAG (P6.0) and CSM (P6.1) is low.  For AG and
    M the transaction opens by driving the device's line, and only it, low;
    the address byte and the data byte(s) are all exchanged at that port
    value; the store that follows the last data byte drives both lines
    high. *)
Theorem chip_select_framing slave (device : ss_t)
    (address bytesToRead data : Z) (s : state) :
  idle (P6OUT s) = true ->
  let rd := emitted (read_SPI slave device address bytesToRead) s in
  let wr := emitted (write_SPI slave device address data) s in
  Forall (fun e => exclusive (port_of e) = true) rd /\
  Forall (fun e => exclusive (port_of e) = true) wr /\
  idle (P6OUT (exec (read_SPI slave device address bytesToRead) s)) = true /\
  idle (P6OUT (exec (write_SPI slave device address data) s)) = true /\
  (device = AG \/ device = M ->
   exists p1 p2 xs ys,
     rd = GPIO p1 :: xs ++ [GPIO p2] /\
     wr = GPIO p1 :: ys ++ [GPIO p2] /\
     selects device p1 = true /\
     idle p2 = true /\
     Forall (exchange_at p1) xs /\
     Forall (exchange_at p1) ys /\
     length xs = (if uint8_t bytesToRead =? 2 then 3%nat else 2%nat) /\
     length ys = 2%nat).
Proof.
  intros Hidle. cbv zeta.
  assert (Hdev : (device = AG \/ device = M) \/ (device = A \/ device = G))
    by (destruct device; auto).
  destruct Hdev as [Hdev | Hdev].
  - destruct (read_SPI_selected slave device address bytesToRead s Hdev)
      as (r0 & lo & hi & Hbus & Hport & _).
    destruct (write_SPI_selected slave device address data s Hdev)
      as (w0 & w1 & Hwbus & Hwport).
    cbv zeta in *.
    pose proof (assert_selects device (P6OUT s) Hdev Hidle) as Hsel.
    pose proof (release_idle device _ Hsel) as Hrel.
    pose proof (select_exclusive _ _ Hsel) as Hx1.
    pose proof (idle_exclusive _ Hrel) as Hx2.
    rewrite (emitted_app _ _ _ Hbus), (emitted_app _ _ _ Hwbus).
    rewrite Hport, Hwport.
    set (p1 := uint8_t (Z.land (P6OUT s) (assert_mask device))) in *.
    set (p2 := uint8_t (Z.lor p1 (release_mask device))) in *.
    split; [ | split; [ | split; [ exact Hrel | split; [ exact Hrel | ] ] ] ].
    + destruct (uint8_t bytesToRead =? 2); repeat constructor; assumption.
    + repeat constructor; assumption.
    + intros _. exists p1, p2.
      exists (XFER p1
                (uint8_t (Z.lor (uint8_t address) (read_flags device))) r0
              :: XFER p1 0 lo
              :: (if uint8_t bytesToRead =? 2 then [XFER p1 0 hi] else [])).
      exists [XFER p1 (uint8_t address) w0; XFER p1 (uint8_t data) w1].
      split; [ reflexivity | ]. split; [ reflexivity | ].
      split; [ exact Hsel | ]. split; [ exact Hrel | ].
      split; [ | split; [ | split ] ].
      * destruct (uint8_t bytesToRead =? 2);
          repeat constructor; do 2 eexists; reflexivity.
      * repeat constructor; do 2 eexists; reflexivity.
      * destruct (uint8_t bytesToRead =? 2); reflexivity.
      * reflexivity.
  - destruct (read_SPI_unselected slave device address bytesToRead s Hdev)
      as (Hbus & Hport & _).
    destruct (write_SPI_unselected slave device address data s Hdev)
      as (Hwbus & Hwport).
    cbv zeta in *.
    pose proof (idle_exclusive _ Hidle) as Hx.
    rewrite (emitted_app _ _ _ Hbus), (emitted_app _ _ _ Hwbus).
    rewrite Hport, Hwport.
    split; [ | split; [ | split; [ exact Hidle | split; [ exact Hidle | ] ] ] ].
    + destruct (uint8_t bytesToRead =? 2); repeat constructor; assumption.
    + repeat constructor; assumption.
    + intros [-> | ->]; destruct Hdev; discriminate.
Qed.

Lemma chip_select_framing_witness :
  let slave := replay [] in
  let s := exec (LSM9DS1_Init slave) cold in
  let rd := emitted (read_SPI slave AG OUT_X_L_XL 2) s in
  let wr := emitted (write_SPI slave AG OUT_X_L_XL 0x40) s in
  idle (P6OUT s) = true /\
  Forall (fun e => exclusive (port_of e) = true) rd /\
  Forall (fun e => exclusive (port_of e) = true) wr /\
  idle (P6OUT (exec (read_SPI slave AG OUT_X_L_XL 2) s)) = true /\
  idle (P6OUT (exec (write_SPI slave AG OUT_X_L_XL 0x40) s)) = true /\
  (AG = AG \/ AG = M ->
   exists p1 p2 xs ys,
     rd = GPIO p1 :: xs ++ [GPIO p2] /\
     wr = GPIO p1 :: ys ++ [GPIO p2] /\
     selects AG p1 = true /\
     idle p2 = true /\
     Forall (exchange_at p1) xs /\
     Forall (exchange_at p1) ys /\
     length xs = (if uint8_t 2 =? 2 then 3%nat else 2%nat) /\
     length ys = 2%nat).
Proof.
  cbv zeta. split; [ vm_compute; reflexivity | ].
  apply (chip_select_framing (replay []) AG OUT_X_L_XL 2 0x40
           (exec (LSM9DS1_Init (replay [])) cold)).
  vm_compute. reflexivity.
Defined.

(** ** Initialisation script *)

Lemma selected_selects (device : ss_t) (p : Z) :
  selects device p = true -> selected p = Some device.
Proof.
  unfold selected. destruct device; simpl; try discriminate;
    destruct (CSAG_low p), (CSM_low p); simpl; congruence.
Qed.

Lemma selected_idle (p : Z) : idle p = true -> selected p = None.
Proof.
  unfold selected, idle, selects.
  destruct (CSAG_low p), (CSM_low p); simpl; congruence.
Qed.

Lemma frames_write_frame (device : ss_t) (address data : Z)
    (evs rest : list event) :
  write_frame device address data evs ->
  frames None (evs ++ rest) = (device, [address; data]) :: frames None rest /\
  mosi (evs ++ rest) = address :: data :: mosi rest.
Proof.
  intros (p1 & p2 & r0 & r1 & -> & Hsel & Hidle).
  split; [ | reflexivity ].
  cbn [app frames].
  rewrite (selected_selects _ _ Hsel), (selected_idle _ Hidle). reflexivity.
Qed.

Lemma write_SPI_frame slave (device : ss_t) (address data : Z) (s : state) :
  device = AG \/ device = M ->
  idle (P6OUT s) = true ->
  exists evs,
    bus (exec (write_SPI slave device address data) s) = bus s ++ evs /\
    write_frame device (uint8_t address) (uint8_t data) evs /\
    idle (P6OUT (exec (write_SPI slave device address data) s)) = true.
Proof.
  intros Hdev Hidle.
  destruct (write_SPI_selected slave device address data s Hdev)
    as (r0 & r1 & Hbus & Hport).
  cbv zeta in *.
  pose proof (assert_selects device (P6OUT s) Hdev Hidle) as Hsel.
  pose proof (release_idle device _ Hsel) as Hrel.
  eexists. split; [ exact Hbus | ]. split.
  - do 4 eexists. split; [ reflexivity | ]. split; assumption.
  - rewrite Hport. exact Hrel.
Qed.

(** The pin and module set-up parks both select lines high with a single
    store to P6OUT. *)
Lemma set_up_parks (s : state) :
  let s0 := exec UCB1_init (exec pin_init s) in
  bus s0 = bus s ++ [GPIO (P6OUT s0)] /\ idle (P6OUT s0) = true.
Proof.
  destruct s as [sel dir out ctl brw tx rx rd log].
  cbv zeta. split; [ reflexivity | ].
  change (P6OUT (exec UCB1_init
            (exec pin_init (mkState sel dir out ctl brw tx rx rd log))))
    with (uint8_t (Z.lor out (Z.lor (Z.lor BIT0 BIT1) BIT2))).
  apply park_idle.
Qed.

Lemma exec_seq {T U : Type} (c1 : drv T) (c2 : drv U) (s : state) :
  exec (c1 ;; c2) s = exec c2 (exec c1 s).
Proof. apply exec_bind. Qed.

(** The log of [LSM9DS1_Init]: the parking store, then six write frames. *)
Lemma LSM9DS1_Init_log slave (s : state) :
  exists p0 t1 t2 t3 t4 t5 t6,
    emitted (LSM9DS1_Init slave) s
      = GPIO p0 :: t1 ++ t2 ++ t3 ++ t4 ++ t5 ++ t6 ++ [] /\
    idle p0 = true /\
    write_frame AG CTRL_REG1_G 0x20 t1 /\
    write_frame AG CTRL_REG6_XL 0x40 t2 /\
    write_frame AG CTRL_REG5_XL 0x38 t3 /\
    write_frame M CTRL_REG3_M 0x00 t4 /\
    write_frame M CTRL_REG1_M 0x74 t5 /\
    write_frame M CTRL_REG4_M 0x0C t6 /\
    idle (P6OUT (exec (LSM9DS1_Init slave) s)) = true.
Proof.
  destruct (set_up_parks s) as (Hb0 & Hi0). cbv zeta in Hb0, Hi0.
  unfold LSM9DS1_Init, LSM_init. rewrite !exec_seq.
  set (s0 := exec UCB1_init (exec pin_init s)) in *.
  destruct (write_SPI_frame slave AG CTRL_REG1_G 0x20 s0
              (or_introl eq_refl) Hi0) as (t1 & Hb1 & Hf1 & Hi1).
  set (s1 := exec (write_SPI slave AG CTRL_REG1_G 0x20) s0) in *.
  destruct (write_SPI_frame slave AG CTRL_REG6_XL 0x40 s1
              (or_introl eq_refl) Hi1) as (t2 & Hb2 & Hf2 & Hi2).
  set (s2 := exec (write_SPI slave AG CTRL_REG6_XL 0x40) s1) in *.
  destruct (write_SPI_frame slave AG CTRL_REG5_XL 0x38 s2
              (or_introl eq_refl) Hi2) as (t3 & Hb3 & Hf3 & Hi3).
  set (s3 := exec (write_SPI slave AG CTRL_REG5_XL 0x38) s2) in *.
  destruct (write_SPI_frame slave M CTRL_REG3_M 0x00 s3
              (or_intror eq_refl) Hi3) as (t4 & Hb4 & Hf4 & Hi4).
  set (s4 := exec (write_SPI slave M CTRL_REG3_M 0x00) s3) in *.
  destruct (write_SPI_frame slave M CTRL_REG1_M 0x74 s4
              (or_intror eq_refl) Hi4) as (t5 & Hb5 & Hf5 & Hi5).
  set (s5 := exec (write_SPI slave M CTRL_REG1_M 0x74) s4) in *.
  destruct (write_SPI_frame slave M CTRL_REG4_M 0x0C s5
              (or_intror eq_refl) Hi5) as (t6 & Hb6 & Hf6 & Hi6).
  set (s6 := exec (write_SPI slave M CTRL_REG4_M 0x0C) s5) in *.
  exists (P6OUT s0), t1, t2, t3, t4, t5, t6.
  split; [ | auto 10 ].
  unfold emitted. rewrite !exec_seq. fold s0 s1 s2 s3 s4 s5 s6.
  rewrite Hb6, Hb5, Hb4, Hb3, Hb2, Hb1, Hb0.
  repeat rewrite <- app_assoc.
  rewrite skipn_app, skipn_all, Nat.sub_diag. rewrite app_nil_r. reflexivity.
Qed.

(** Every call hands the select lines back parked. *)
Lemma run_call_parks slave (c : call) (s : state) :
  idle (P6OUT s) = true -> idle (P6OUT (exec (run_call slave c) s)) = true.
Proof.
  intros Hidle.
  destruct c as [device address n | device address data]; cbn [run_call];
    assert (Hdev : (device = AG \/ device = M) \/ (device = A \/ device = G))
      by (destruct device; auto);
    destruct Hdev as [Hdev | Hdev].
  - destruct (read_SPI_selected slave device address n s Hdev)
      as (r0 & lo & hi & _ & -> & _).
    apply release_idle, assert_selects; assumption.
  - destruct (read_SPI_unselected slave device address n s Hdev)
      as (_ & -> & _). exact Hidle.
  - destruct (write_SPI_selected slave device address data s Hdev)
      as (r0 & r1 & _ & ->).
    apply release_idle, assert_selects; assumption.
  - destruct (write_SPI_unselected slave device address data s Hdev)
      as (_ & ->). exact Hidle.
Qed.

(** Whatever the state at power-up and whatever calls follow
    [LSM9DS1_Init], the next call finds both select lines high. *)
Lemma session_parked slave (calls : list call) (s : state) :
  idle (P6OUT (session slave calls s)) = true.
Proof.
  unfold session.
  destruct (LSM9DS1_Init_log slave s)
    as (p0 & t1 & t2 & t3 & t4 & t5 & t6 & _ & _ & _ & _ & _ & _ & _ & _
        & Hidle).
  revert Hidle. generalize (exec (LSM9DS1_Init slave) s).
  induction calls as [ | c calls IH]; intros t Hidle; cbn [fold_left].
  - exact Hidle.
  - apply IH, run_call_parks, Hidle.
Qed.

(** Decoding the log of [LSM9DS1_Init]. *)
Lemma LSM9DS1_Init_frames slave (s : state) :
  frames None (emitted (LSM9DS1_Init slave) s)
    = [ (AG, [0x10; 0x20]); (AG, [0x20; 0x40]); (AG, [0x1F; 0x38]);
        (M, [0x22; 0x00]); (M, [0x20; 0x74]); (M, [0x23; 0x0C]) ] /\
  mosi (emitted (LSM9DS1_Init slave) s)
    = [ 0x10; 0x20; 0x20; 0x40; 0x1F; 0x38; 0x22; 0x00; 0x20; 0x74;
        0x23; 0x0C ].
Proof.
  destruct (LSM9DS1_Init_log slave s)
    as (p0 & t1 & t2 & t3 & t4 & t5 & t6 & -> & Hi0
        & Hf1 & Hf2 & Hf3 & Hf4 & Hf5 & Hf6 & _).
  cbn [frames mosi]. rewrite (selected_idle _ Hi0).
  destruct (frames_write_frame _ _ _ _ (t2 ++ t3 ++ t4 ++ t5 ++ t6 ++ []) Hf1)
    as (-> & ->).
  destruct (frames_write_frame _ _ _ _ (t3 ++ t4 ++ t5 ++ t6 ++ []) Hf2)
    as (-> & ->).
  destruct (frames_write_frame _ _ _ _ (t4 ++ t5 ++ t6 ++ []) Hf3)
    as (-> & ->).
  destruct (frames_write_frame _ _ _ _ (t5 ++ t6 ++ []) Hf4) as (-> & ->).
  destruct (frames_write_frame _ _ _ _ (t6 ++ []) Hf5) as (-> & ->).
  destruct (frames_write_frame _ _ _ _ [] Hf6) as (-> & ->).
  split; reflexivity.
Qed.

(** C7: [LSM9DS1_Init] issues exactly six register-write transactions, the
    same from every state and whatever the devices answer, in this order:
    CTRL_REG1_G (0x10) <- 0x20, CTRL_REG6_XL (0x20) <- 0x40 and
    CTRL_REG5_XL (0x1F) <- 0x38 on AG, then CTRL_REG3_M (0x22) <- 0x00,
    CTRL_REG1_M (0x20) <- 0x74 and CTRL_REG4_M (0x23) <- 0x0C on M; no other
    byte is clocked out. *)
Theorem LSM9DS1_Init_script slave (s : state) :
  frames None (emitted (LSM9DS1_Init slave) s)
    = [ (AG, [CTRL_REG1_G; 0x20]); (AG, [CTRL_REG6_XL; 0x40]);
        (AG, [CTRL_REG5_XL; 0x38]); (M, [CTRL_REG3_M; 0x00]);
        (M, [CTRL_REG1_M; 0x74]); (M, [CTRL_REG4_M; 0x0C]) ] /\
  length (frames None (emitted (LSM9DS1_Init slave) s)) = 6%nat /\
  mosi (emitted (LSM9DS1_Init slave) s)
    = [ 0x10; 0x20; 0x20; 0x40; 0x1F; 0x38; 0x22; 0x00; 0x20; 0x74;
        0x23; 0x0C ].
Proof.
  destruct (LSM9DS1_Init_frames slave s) as (Hframes & Hmosi).
  rewrite Hframes, Hmosi. repeat split.
Qed.

(** ** Auto-increment *)

(** C8 (as stated) fails on both counts.  On M the address byte of a read
    carries the increment flag, bit 6, which is not part of the address
    (OUT_X_L_M is 0x28; 0xE8 goes out); and no frame of [LSM9DS1_Init]
    addresses CTRL_REG8, the AG register holding the increment enable. *)
Lemma increment_flag_counterexample :
  hd_error (mosi (emitted (read_SPI (replay []) M OUT_X_L_M 2) parked))
    = Some 0xE8 /\
  Z.testbit 0xE8 6 = true /\
  Z.testbit OUT_X_L_M 6 = false /\
  existsb (addresses AG CTRL_REG8)
    (frames None (emitted (LSM9DS1_Init (replay [])) cold)) = false.
Proof. repeat split. Qed.

Lemma land_127_read_flag (a : Z) :
  0 <= a < 128 -> Z.land (Z.lor a 0x80) 0x7F = a.
Proof.
  intros Ha. rewrite Z.land_lor_distr_l.
  change (Z.land 0x80 0x7F) with 0. rewrite Z.lor_0_r.
  change 0x7F with (Z.ones 7). rewrite Z.land_ones by lia.
  apply Z.mod_small. change (2 ^ 7) with 128. lia.
Qed.

(** C8 (as amended): the increment policy is not configured by
    initialisation: no write of [LSM9DS1_Init] addresses CTRL_REG8 on AG.
    On AG the address byte of a read carries nothing besides the read flag
    (its low seven bits are the address); on M the address byte of every
    read, one-byte or two-byte, carries the increment flag (bit 6) next to
    the read flag. *)
Theorem increment_flag_policy slave (address bytesToRead : Z) (s : state) :
  0 <= address < 128 ->
  (exists b,
     hd_error (mosi (emitted (read_SPI slave M address bytesToRead) s))
       = Some b /\
     Z.testbit b 6 = true /\ Z.testbit b 7 = true) /\
  (exists b,
     hd_error (mosi (emitted (read_SPI slave AG address bytesToRead) s))
       = Some b /\
     Z.land b 0x7F = address /\ Z.testbit b 7 = true) /\
  existsb (addresses AG CTRL_REG8)
    (frames None (emitted (LSM9DS1_Init slave) s)) = false.
Proof.
  intros Ha.
  assert (Hbyte : forall dev, dev = AG \/ dev = M ->
            hd_error (mosi (emitted (read_SPI slave dev address bytesToRead) s))
              = Some (Z.lor address (read_flags dev))).
  { intros dev Hdev.
    destruct (read_SPI_selected slave dev address bytesToRead s Hdev)
      as (r0 & lo & hi & Hbus & _).
    cbv zeta in Hbus. rewrite (emitted_app _ _ _ Hbus). cbn [mosi hd_error].
    rewrite (uint8_t_small address) by lia.
    rewrite uint8_t_lor_flag;
      [ reflexivity | lia | destruct Hdev as [-> | ->]; simpl; lia ]. }
  split; [ | split ].
  - eexists. split; [ apply Hbyte; auto | ].
    cbn [read_flags]. rewrite !Z.lor_spec. split; apply orb_true_r.
  - eexists. split; [ apply Hbyte; auto | ].
    cbn [read_flags]. split; [ apply land_127_read_flag; exact Ha | ].
    rewrite Z.lor_spec. apply orb_true_r.
  - destruct (LSM9DS1_Init_frames slave s) as (-> & _). reflexivity.
Qed.

Lemma increment_flag_policy_witness :
  (exists b,
     hd_error (mosi (emitted (read_SPI (replay []) M WHO_AM_I 1) parked))
       = Some b /\
     Z.testbit b 6 = true /\ Z.testbit b 7 = true) /\
  (exists b,
     hd_error (mosi (emitted (read_SPI (replay []) AG WHO_AM_I 1) parked))
       = Some b /\
     Z.land b 0x7F = WHO_AM_I /\ Z.testbit b 7 = true) /\
  existsb (addresses AG CTRL_REG8)
    (frames None (emitted (LSM9DS1_Init (replay [])) parked)) = false.
Proof.
  apply (increment_flag_policy (replay []) WHO_AM_I 1 parked).
  unfold WHO_AM_I. lia.
Defined.

(** ** Scaling *)

(** C's [/] on the accelerometer and temperature scales never leaves the
    [int16_t] range, so the assignment back to the local is lossless. *)
Lemma scale_fits (x num den : Z) :
  -32768 <= x <= 32767 ->
  0 <= num <= den -> 0 < den ->
  int16_t (Z.quot (x * num) den) = Z.quot (x * num) den.
Proof.
  intros Hx Hnum Hden. apply int16_t_small.
  pose proof (Z.quot_rem' (x * num) den) as Hqr.
  set (q := Z.quot (x * num) den) in *.
  set (r := Z.rem (x * num) den) in *.
  destruct (Z.le_gt_cases 0 x) as [Hpos | Hneg].
  - assert (Hr : 0 <= r < den)
      by (apply Z.rem_bound_pos; [ apply Z.mul_nonneg_nonneg | ]; lia).
    assert (H1 : x * num <= x * den) by (apply Z.mul_le_mono_nonneg_l; lia).
    assert (H2 : x * den <= 32767 * den)
      by (apply Z.mul_le_mono_nonneg_r; lia).
    assert (H3 : den * q <= den * 32767) by lia.
    assert (H4 : den * (-1) < den * q) by lia.
    apply Z.mul_le_mono_pos_l in H3; [ | lia ].
    apply Z.mul_lt_mono_pos_l in H4; [ | lia ]. lia.
  - assert (Hr : - den < r <= 0).
    { apply Z.rem_bound_pos_neg; [ lia | ].
      apply Z.mul_nonpos_nonneg; lia. }
    assert (H1 : (- x) * num <= (- x) * den)
      by (apply Z.mul_le_mono_nonneg_l; lia).
    assert (H2 : (- x) * den <= 32768 * den)
      by (apply Z.mul_le_mono_nonneg_r; lia).
    assert (H3 : den * (-32768) <= den * q) by lia.
    assert (H4 : den * q < den * 1) by lia.
    apply Z.mul_le_mono_pos_l in H3; [ | lia ].
    apply Z.mul_lt_mono_pos_l in H4; [ | lia ]. lia.
Qed.

(** Run an accessor down to the state its read leaves behind. *)
Ltac accessor_run f :=
  unfold raw_sample, f;
  rewrite ?exec_bind, ?result_bind; cbv beta;
  match goal with
  | |- context [exec (read_SPI ?sl ?dev ?reg ?n) ?s] =>
      generalize (exec (read_SPI sl dev reg n) s); intro
  end;
  cbv [bind load ret result exec fst snd].

(** The accelerometer and temperature accessors return the truncated
    quotient itself. *)
Lemma accel_temp_scaling slave (s : state) :
  result (LSM9DS1_XA slave) s
    = Z.quot (raw_sample (LSM9DS1_XA slave) s * 61) 1000 /\
  result (LSM9DS1_YA slave) s
    = Z.quot (raw_sample (LSM9DS1_YA slave) s * 61) 1000 /\
  result (LSM9DS1_ZA slave) s
    = Z.quot (raw_sample (LSM9DS1_ZA slave) s * 61) 1000 /\
  result (LSM9DS1_TMP slave) s
    = Z.quot (raw_sample (LSM9DS1_TMP slave) s * 10) 16.
Proof.
  split; [ accessor_run LSM9DS1_XA | split; [ accessor_run LSM9DS1_YA
         | split; [ accessor_run LSM9DS1_ZA | accessor_run LSM9DS1_TMP ] ] ];
    apply scale_fits; try lia; apply int16_t_range.
Qed.

(** C4: the scaling divides with truncation toward zero ([Z.quot]), neither
    rounding nor flooring.  The accelerometer accessors return
    raw * 61 / 1000 and the temperature accessor raw * 10 / 16 so divided;
    raw = 1000 gives 61 and raw = -1000 gives -61 on each accelerometer
    axis, raw = -160 gives -100 for the temperature.  Raw = 1009 (61.549)
    gives 61 where rounding would give 62, and raw = -1001 (-61.061) gives
    -61 where flooring would give -62. *)
Theorem scaling_truncates_toward_zero :
  (forall slave (s : state),
     result (LSM9DS1_XA slave) s
       = Z.quot (raw_sample (LSM9DS1_XA slave) s * 61) 1000 /\
     result (LSM9DS1_YA slave) s
       = Z.quot (raw_sample (LSM9DS1_YA slave) s * 61) 1000 /\
     result (LSM9DS1_ZA slave) s
       = Z.quot (raw_sample (LSM9DS1_ZA slave) s * 61) 1000 /\
     result (LSM9DS1_TMP slave) s
       = Z.quot (raw_sample (LSM9DS1_TMP slave) s * 10) 16) /\
  (let slave := replay [0x00; 0xE8; 0x03] in
   raw_sample (LSM9DS1_XA slave) parked = 1000 /\
   result (LSM9DS1_XA slave) parked = 61 /\
   result (LSM9DS1_YA slave) parked = 61 /\
   result (LSM9DS1_ZA slave) parked = 61) /\
  (let slave := replay [0x00; 0x18; 0xFC] in
   raw_sample (LSM9DS1_XA slave) parked = -1000 /\
   result (LSM9DS1_XA slave) parked = -61 /\
   result (LSM9DS1_YA slave) parked = -61 /\
   result (LSM9DS1_ZA slave) parked = -61) /\
  (let slave := replay [0x00; 0x60; 0xFF] in
   raw_sample (LSM9DS1_TMP slave) parked = -160 /\
   result (LSM9DS1_TMP slave) parked = -100) /\
  (let slave := replay [0x00; 0xF1; 0x03] in
   raw_sample (LSM9DS1_XA slave) parked = 1009 /\
   result (LSM9DS1_XA slave) parked = 61) /\
  (let slave := replay [0x00; 0x17; 0xFC] in
   raw_sample (LSM9DS1_XA slave) parked = -1001 /\
   result (LSM9DS1_XA slave) parked = -61 /\
   (-1001 * 61) / 1000 = -62).
Proof.
  split; [ exact accel_temp_scaling | ].
  cbv zeta. repeat split.
Qed.

(** The gyroscope accessors compute the same truncated quotient but store it
    in an [int16_t]: the value returned is the quotient only while it fits,
    that is for raw samples between -3744 and 3744. *)
Lemma gyro_scaling slave (s : state) :
  result (LSM9DS1_XG slave) s
    = int16_t (Z.quot (raw_sample (LSM9DS1_XG slave) s * 875) 100) /\
  result (LSM9DS1_YG slave) s
    = int16_t (Z.quot (raw_sample (LSM9DS1_YG slave) s * 875) 100) /\
  result (LSM9DS1_ZG slave) s
    = int16_t (Z.quot (raw_sample (LSM9DS1_ZG slave) s * 875) 100).
Proof.
  split; [ accessor_run LSM9DS1_XG | split; [ accessor_run LSM9DS1_YG
         | accessor_run LSM9DS1_ZG ] ]; reflexivity.
Qed.

(** C3 fails on the code: at raw = 4000 (bytes 0xA0, 0x0F) the claimed value
    4000 * 875 / 100 = 35000 does not fit the [int16_t] the accessors return;
    each gyroscope accessor returns -30536. *)
Theorem gyro_scaling_overflows :
  let slave := replay [0x00; 0xA0; 0x0F] in
  raw_sample (LSM9DS1_XG slave) parked = 4000 /\
  raw_sample (LSM9DS1_YG slave) parked = 4000 /\
  raw_sample (LSM9DS1_ZG slave) parked = 4000 /\
  Z.quot (4000 * 875) 100 = 35000 /\
  result (LSM9DS1_XG slave) parked = -30536 /\
  result (LSM9DS1_YG slave) parked = -30536 /\
  result (LSM9DS1_ZG slave) parked = -30536.
Proof. cbv zeta. repeat split. Qed.

(** * Further properties of the driver *)

(** ** Ranges of the scaled readings *)

Lemma quot_between (x lo hi num den : Z) :
  0 < den -> 0 <= num -> lo <= x <= hi ->
  Z.quot (lo * num) den <= Z.quot (x * num) den <= Z.quot (hi * num) den.
Proof.
  intros Hden Hnum Hx.
  split; apply Z.quot_le_mono; try lia; apply Z.mul_le_mono_nonneg_r; lia.
Qed.

(** X1: the magnetometer accessors return raw * 14 / 100 truncated toward
    zero for every raw sample; the quotient always fits [int16_t] and lies
    between -4587 and 4587. *)
Theorem mag_scaling slave (s : state) :
  (result (LSM9DS1_XM slave) s
     = Z.quot (raw_sample (LSM9DS1_XM slave) s * 14) 100 /\
   -4587 <= result (LSM9DS1_XM slave) s <= 4587) /\
  (result (LSM9DS1_YM slave) s
     = Z.quot (raw_sample (LSM9DS1_YM slave) s * 14) 100 /\
   -4587 <= result (LSM9DS1_YM slave) s <= 4587) /\
  (result (LSM9DS1_ZM slave) s
     = Z.quot (raw_sample (LSM9DS1_ZM slave) s * 14) 100 /\
   -4587 <= result (LSM9DS1_ZM slave) s <= 4587).
Proof.
  assert (Hfit : forall r,
            int16_t (Z.quot (int16_t r * 14) 100) = Z.quot (int16_t r * 14) 100
            /\ -4587 <= int16_t (Z.quot (int16_t r * 14) 100) <= 4587).
  { intros r.
    assert (Heq : int16_t (Z.quot (int16_t r * 14) 100)
                  = Z.quot (int16_t r * 14) 100)
      by (apply scale_fits; try lia; apply int16_t_range).
    split; [ exact Heq | ]. rewrite Heq.
    pose proof (quot_between (int16_t r) (-32768) 32767 14 100
                  ltac:(lia) ltac:(lia) (int16_t_range r)) as Hq.
    change (Z.quot (-32768 * 14) 100) with (-4587) in Hq.
    change (Z.quot (32767 * 14) 100) with 4587 in Hq. exact Hq. }
  split; [ accessor_run LSM9DS1_XM | split; [ accessor_run LSM9DS1_YM
         | accessor_run LSM9DS1_ZM ] ]; apply Hfit.
Qed.

(** X2: the accelerometer readings lie between -1998 and 1998 and the
    temperature reading between -20480 and 20479, whatever the device
    answers. *)
Theorem accel_temp_ranges slave (s : state) :
  -1998 <= result (LSM9DS1_XA slave) s <= 1998 /\
  -1998 <= result (LSM9DS1_YA slave) s <= 1998 /\
  -1998 <= result (LSM9DS1_ZA slave) s <= 1998 /\
  -20480 <= result (LSM9DS1_TMP slave) s <= 20479.
Proof.
  destruct (accel_temp_scaling slave s) as (-> & -> & -> & ->).
  unfold raw_sample.
  assert (Ha : forall r, -1998 <= Z.quot (int16_t r * 61) 1000 <= 1998).
  { intros r.
    pose proof (quot_between (int16_t r) (-32768) 32767 61 1000
                  ltac:(lia) ltac:(lia) (int16_t_range r)) as Hq.
    change (Z.quot (-32768 * 61) 1000) with (-1998) in Hq.
    change (Z.quot (32767 * 61) 1000) with 1998 in Hq. exact Hq. }
  assert (Ht : forall r, -20480 <= Z.quot (int16_t r * 10) 16 <= 20479).
  { intros r.
    pose proof (quot_between (int16_t r) (-32768) 32767 10 16
                  ltac:(lia) ltac:(lia) (int16_t_range r)) as Hq.
    change (Z.quot (-32768 * 10) 16) with (-20480) in Hq.
    change (Z.quot (32767 * 10) 16) with 20479 in Hq. exact Hq. }
  auto.
Qed.

(** ** Where the gyroscope scaling is exact *)

Lemma int16_t_fixed_iff (q : Z) : int16_t q = q <-> -32768 <= q <= 32767.
Proof.
  split.
  - intros H. rewrite <- H. apply int16_t_range.
  - apply int16_t_small.
Qed.

Lemma gyro_quot_fits_iff (r : Z) :
  -32768 <= Z.quot (r * 875) 100 <= 32767 <-> -3745 <= r <= 3744.
Proof.
  split.
  - intros [Hlo Hhi].
    destruct (Z.le_gt_cases r 3744) as [Hle | Hgt];
      destruct (Z.le_gt_cases (-3745) r) as [Hge | Hlt]; try lia.
    + assert (H : Z.quot (r * 875) 100 <= Z.quot (-3746 * 875) 100)
        by (apply Z.quot_le_mono; lia).
      change (Z.quot (-3746 * 875) 100) with (-32777) in H. lia.
    + assert (H : Z.quot (3745 * 875) 100 <= Z.quot (r * 875) 100)
        by (apply Z.quot_le_mono; lia).
      change (Z.quot (3745 * 875) 100) with 32768 in H. lia.
  - intros Hr.
    pose proof (quot_between r (-3745) 3744 875 100
                  ltac:(lia) ltac:(lia) Hr) as Hq.
    change (Z.quot (-3745 * 875) 100) with (-32768) in Hq.
    change (Z.quot (3744 * 875) 100) with 32760 in Hq. lia.
Qed.

(** X3: a gyroscope accessor returns raw * 875 / 100 (truncated toward
    zero) exactly when the raw sample lies between -3745 and 3744; outside
    that interval the value returned is the quotient wrapped to 16 bits and
    differs from it. *)
Theorem gyro_exact_iff slave (s : state) :
  (result (LSM9DS1_XG slave) s
     = Z.quot (raw_sample (LSM9DS1_XG slave) s * 875) 100
   <-> -3745 <= raw_sample (LSM9DS1_XG slave) s <= 3744) /\
  (result (LSM9DS1_YG slave) s
     = Z.quot (raw_sample (LSM9DS1_YG slave) s * 875) 100
   <-> -3745 <= raw_sample (LSM9DS1_YG slave) s <= 3744) /\
  (result (LSM9DS1_ZG slave) s
     = Z.quot (raw_sample (LSM9DS1_ZG slave) s * 875) 100
   <-> -3745 <= raw_sample (LSM9DS1_ZG slave) s <= 3744).
Proof.
  assert (Hiff : forall r,
            int16_t (Z.quot (r * 875) 100) = Z.quot (r * 875) 100
            <-> -3745 <= r <= 3744).
  { intros r. rewrite int16_t_fixed_iff. apply gyro_quot_fits_iff. }
  destruct (gyro_scaling slave s) as (-> & -> & ->).
  split; [ apply Hiff | split; apply Hiff ].
Qed.

(** ** Sessions: how transactions compose on the bus *)

Lemma frames_read_frame (device : ss_t) (p1 p2 b0 r0 lo hi : Z) (two : bool)
    (rest : list event) :
  selects device p1 = true ->
  idle p2 = true ->
  frames None
    ((GPIO p1 :: XFER p1 b0 r0 :: XFER p1 0 lo
        :: (if two then [XFER p1 0 hi] else []) ++ [GPIO p2]) ++ rest)
    = (device, b0 :: 0 :: (if two then [0] else [])) :: frames None rest.
Proof.
  intros Hsel Hidle. destruct two; cbn [app frames];
    rewrite (selected_selects _ _ Hsel), (selected_idle _ Hidle); reflexivity.
Qed.

(** One call from a parked port: its events, how they decode, and the port
    parked again. *)
Lemma run_call_log slave (c : call) (t : state) :
  idle (P6OUT t) = true ->
  exists evs,
    bus (exec (run_call slave c) t) = bus t ++ evs /\
    (forall rest,
       frames None (evs ++ rest) = frame_of_call c ++ frames None rest) /\
    bus_exclusive evs /\
    idle (P6OUT (exec (run_call slave c) t)) = true.
Proof.
  intros Hidle. pose proof (idle_exclusive _ Hidle) as Hx.
  unfold bus_exclusive.
  destruct c as [device address n | device address data]; cbn [run_call];
    assert (Hdev : (device = AG \/ device = M) \/ (device = A \/ device = G))
      by (destruct device; auto);
    destruct Hdev as [Hdev | Hdev].
  - destruct (read_SPI_selected slave device address n t Hdev)
      as (r0 & lo & hi & Hbus & Hport & _).
    cbv zeta in Hbus, Hport.
    pose proof (assert_selects device (P6OUT t) Hdev Hidle) as Hsel.
    pose proof (release_idle device _ Hsel) as Hrel.
    pose proof (select_exclusive _ _ Hsel) as Hx1.
    pose proof (idle_exclusive _ Hrel) as Hx2.
    eexists. split; [ exact Hbus | ]. split; [ | split ].
    + intros rest. rewrite (frames_read_frame device) by assumption.
      destruct Hdev as [-> | ->]; reflexivity.
    + destruct (uint8_t n =? 2); repeat constructor; assumption.
    + rewrite Hport. exact Hrel.
  - destruct (read_SPI_unselected slave device address n t Hdev)
      as (Hbus & Hport & _).
    cbv zeta in Hbus, Hport.
    eexists. split; [ exact Hbus | ]. split; [ | split ].
    + intros rest.
      destruct Hdev as [-> | ->]; destruct (uint8_t n =? 2); reflexivity.
    + destruct (uint8_t n =? 2); repeat constructor; assumption.
    + rewrite Hport. exact Hidle.
  - destruct (write_SPI_frame slave device address data t Hdev Hidle)
      as (evs & Hbus & Hframe & Hrel).
    exists evs. split; [ exact Hbus | ]. split; [ | split ].
    + intros rest.
      destruct (frames_write_frame _ _ _ _ rest Hframe) as (-> & _).
      destruct Hdev as [-> | ->]; reflexivity.
    + destruct Hframe as (p1 & p2 & r0 & r1 & -> & Hsel & Hi2).
      pose proof (select_exclusive _ _ Hsel).
      pose proof (idle_exclusive _ Hi2).
      repeat constructor; assumption.
    + exact Hrel.
  - destruct (write_SPI_unselected slave device address data t Hdev)
      as (Hbus & Hport).
    cbv zeta in Hbus, Hport.
    eexists. split; [ exact Hbus | ]. split; [ | split ].
    + intros rest. destruct Hdev as [-> | ->]; reflexivity.
    + repeat constructor; assumption.
    + rewrite Hport. exact Hidle.
Qed.

Lemma calls_log slave (calls : list call) (t : state) :
  idle (P6OUT t) = true ->
  exists evs,
    bus (fold_left (fun u c => exec (run_call slave c) u) calls t)
      = bus t ++ evs /\
    (forall rest,
       frames None (evs ++ rest)
         = flat_map frame_of_call calls ++ frames None rest) /\
    bus_exclusive evs /\
    idle (P6OUT (fold_left (fun u c => exec (run_call slave c) u) calls t))
      = true.
Proof.
  revert t. induction calls as [ | c calls IH]; intros t Hidle.
  - exists []. cbn [fold_left flat_map app]. rewrite app_nil_r.
    repeat split; auto. constructor.
  - destruct (run_call_log slave c t Hidle) as (e1 & Hb1 & Hf1 & Hx1 & Hi1).
    destruct (IH _ Hi1) as (e2 & Hb2 & Hf2 & Hx2 & Hi2).
    exists (e1 ++ e2). cbn [fold_left flat_map].
    split; [ rewrite Hb2, Hb1, app_assoc; reflexivity | ].
    split; [ | split; [ apply Forall_app; split; assumption | exact Hi2 ] ].
    intros rest. rewrite <- !app_assoc, Hf1, Hf2. reflexivity.
Qed.

(** The events of [LSM9DS1_Init] from any state. *)
Lemma LSM9DS1_Init_events slave (s : state) :
  exists evs,
    bus (exec (LSM9DS1_Init slave) s) = bus s ++ evs /\
    (forall rest,
       frames None (evs ++ rest) = init_frames ++ frames None rest) /\
    bus_exclusive evs /\
    idle (P6OUT (exec (LSM9DS1_Init slave) s)) = true.
Proof.
  destruct (set_up_parks s) as (Hb0 & Hi0). cbv zeta in Hb0, Hi0.
  unfold LSM9DS1_Init, LSM_init. rewrite !exec_seq.
  set (s0 := exec UCB1_init (exec pin_init s)) in *.
  destruct (calls_log slave
              [ call_write AG CTRL_REG1_G 0x20; call_write AG CTRL_REG6_XL 0x40;
                call_write AG CTRL_REG5_XL 0x38; call_write M CTRL_REG3_M 0x00;
                call_write M CTRL_REG1_M 0x74; call_write M CTRL_REG4_M 0x0C ]
              s0 Hi0) as (evs & Hb & Hf & Hx & Hi).
  cbn [fold_left run_call flat_map frame_of_call app] in Hb, Hf, Hi.
  exists (GPIO (P6OUT s0) :: evs).
  split; [ rewrite Hb, Hb0, <- app_assoc; reflexivity | ].
  split; [ | split; [ | exact Hi ] ].
  - intros rest. cbn [app frames]. rewrite (selected_idle _ Hi0), Hf.
    reflexivity.
  - constructor; [ apply idle_exclusive; exact Hi0 | exact Hx ].
Qed.

Lemma session_events slave (calls : list call) (s : state) :
  exists e0 e1,
    session_log slave calls s = e0 ++ e1 /\
    (forall rest, frames None (e0 ++ rest) = init_frames ++ frames None rest) /\
    (forall rest,
       frames None (e1 ++ rest)
         = flat_map frame_of_call calls ++ frames None rest) /\
    bus_exclusive e0 /\ bus_exclusive e1 /\
    idle (P6OUT (session slave calls s)) = true.
Proof.
  destruct (LSM9DS1_Init_events slave s) as (e0 & Hb0 & Hf0 & Hx0 & Hi0).
  destruct (calls_log slave calls _ Hi0) as (e1 & Hb1 & Hf1 & Hx1 & Hi1).
  exists e0, e1. unfold session_log, session.
  split; [ | auto 6 ].
  rewrite Hb1, Hb0, <- app_assoc.
  rewrite skipn_app, skipn_all, Nat.sub_diag. reflexivity.
Qed.

(** X4: transactions compose on the bus.  From any power-up state and for
    any sequence of [read_SPI] and [write_SPI] calls made after
    [LSM9DS1_Init], decoding the whole log by the select lines gives the six
    initialisation frames followed by one frame per call addressed to AG or
    M, in call order, each holding exactly the bytes of that call; calls with
    another device value contribute no frame. *)
Theorem session_frames slave (calls : list call) (s : state) :
  frames None (session_log slave calls s)
    = init_frames ++ flat_map frame_of_call calls.
Proof.
  destruct (session_events slave calls s)
    as (e0 & e1 & -> & Hf0 & Hf1 & _).
  rewrite Hf0. rewrite <- (app_nil_r e1), Hf1. cbn [frames].
  rewrite app_nil_r. reflexivity.
Qed.

(** X5: chip-select exclusivity holds over whole sessions.  From any
    power-up state, at every event logged by [LSM9DS1_Init] and by any
    sequence of calls after it, at most one of CSAG and CSM is low, and the
    session ends with both lines high. *)
Theorem session_exclusive slave (calls : list call) (s : state) :
  bus_exclusive (session_log slave calls s) /\
  idle (P6OUT (session slave calls s)) = true.
Proof.
  destruct (session_events slave calls s)
    as (e0 & e1 & -> & _ & _ & Hx0 & Hx1 & Hi).
  split; [ apply Forall_app; split; assumption | exact Hi ].
Qed.

(** ** The typed accessors on the bus *)

(** Any computation followed by a load of [RDxBuffer] and a pure
    post-processing step: the state is that of the computation. *)
Lemma exec_read_then {T U : Type} (c : drv T) (k : Z -> U) (s : state) :
  exec (c ;; r <- load RDxBuffer ;; ret (k r)) s = exec c s /\
  result (c ;; r <- load RDxBuffer ;; ret (k r)) s = k (RDxBuffer (exec c s)).
Proof.
  rewrite exec_bind, result_bind.
  generalize (result c s); generalize (exec c s). intros t v.
  split; reflexivity.
Qed.

Lemma accessor_exec slave (s : state) :
  Forall (fun entry =>
            exec (fst entry) s
              = exec (read_SPI slave (fst (snd entry)) (snd (snd entry)) 2) s)
    (accessors slave).
Proof.
  unfold accessors.
  repeat (apply Forall_cons; [ exact (proj1 (exec_read_then _ _ s)) | ]).
  apply Forall_nil.
Qed.

(** X6: each typed accessor, called with both select lines high, performs
    exactly one transaction: a two-byte read of its own output register on
    its own sub-chip (address byte with the read flags, then two dummy
    bytes), and it leaves both lines high. *)
Theorem accessor_frames slave (s : state) :
  idle (P6OUT s) = true ->
  Forall (fun entry =>
            let device := fst (snd entry) in
            let reg := snd (snd entry) in
            frames None (emitted (fst entry) s)
              = [ (device, [Z.lor reg (read_flags device); 0; 0]) ] /\
            idle (P6OUT (exec (fst entry) s)) = true)
    (accessors slave).
Proof.
  intros Hidle.
  assert (Hread : forall device reg,
            device = AG \/ device = M -> 0 <= reg < 128 ->
            frames None (emitted (read_SPI slave device reg 2) s)
              = [ (device, [Z.lor reg (read_flags device); 0; 0]) ] /\
            idle (P6OUT (exec (read_SPI slave device reg 2) s)) = true).
  { intros device reg Hdev Hreg.
    destruct (run_call_log slave (call_read device reg 2) s Hidle)
      as (evs & Hb & Hf & _ & Hi).
    cbn [run_call] in Hb, Hi. rewrite (emitted_app _ _ _ Hb).
    split; [ | exact Hi ].
    rewrite <- (app_nil_r evs), Hf. cbn [frame_of_call frames].
    rewrite app_nil_r, (uint8_t_small reg) by lia.
    rewrite uint8_t_lor_flag
      by (try lia; destruct Hdev as [-> | ->]; simpl; lia).
    destruct Hdev as [-> | ->]; reflexivity. }
  pose proof (accessor_exec slave s) as Hexec.
  rewrite Forall_forall in Hexec. apply Forall_forall.
  intros entry Hin. specialize (Hexec entry Hin). cbv zeta.
  unfold emitted. rewrite Hexec.
  change (skipn (length (bus s))
            (bus (exec (read_SPI slave (fst (snd entry)) (snd (snd entry)) 2)
                    s)))
    with (emitted (read_SPI slave (fst (snd entry)) (snd (snd entry)) 2) s).
  apply Hread.
  - unfold accessors in Hin. cbn [In] in Hin.
    repeat (destruct Hin as [<- | Hin]; [ cbn [fst snd]; auto | ]).
    contradiction.
  - unfold accessors in Hin. cbn [In] in Hin.
    repeat (destruct Hin as [<- | Hin]; [ cbn [fst snd]; vm_compute; split; congruence | ]).
    contradiction.
Qed.

Lemma accessor_frames_witness :
  idle (P6OUT parked) = true /\
  Forall (fun entry =>
            let device := fst (snd entry) in
            let reg := snd (snd entry) in
            frames None (emitted (fst entry) parked)
              = [ (device, [Z.lor reg (read_flags device); 0; 0]) ] /\
            idle (P6OUT (exec (fst entry) parked)) = true)
    (accessors (replay [])).
Proof.
  split; [ reflexivity | ].
  apply (accessor_frames (replay []) parked). reflexivity.
Defined.

(** ** Identification reads *)

(** X7: on AG and on M, [LSM9DS1_WHO_AM_I] sends the WHO_AM_I address with
    the device's read flags and one dummy byte, and returns exactly the byte
    the device drives during the dummy exchange (the byte clocked in while the
    address goes out is dropped).  [LSM9DS1_TEST_CMD] does the same with
    CTRL_REG5_XL on AG. *)
Theorem identification_reads slave (device : ss_t) (s : state) :
  device = AG \/ device = M ->
  (exists dropped id,
     mosi (emitted (LSM9DS1_WHO_AM_I slave device) s)
       = [Z.lor WHO_AM_I (read_flags device); 0] /\
     miso (emitted (LSM9DS1_WHO_AM_I slave device) s) = [dropped; id] /\
     result (LSM9DS1_WHO_AM_I slave device) s = id) /\
  (exists dropped v,
     mosi (emitted (LSM9DS1_TEST_CMD slave) s)
       = [Z.lor CTRL_REG5_XL 0x80; 0] /\
     miso (emitted (LSM9DS1_TEST_CMD slave) s) = [dropped; v] /\
     result (LSM9DS1_TEST_CMD slave) s = v).
Proof.
  intros Hdev.
  assert (Hone : forall dev reg,
            dev = AG \/ dev = M -> 0 <= reg < 128 ->
            exists dropped v,
              mosi (emitted (read_SPI slave dev reg 1) s)
                = [Z.lor reg (read_flags dev); 0] /\
              miso (emitted (read_SPI slave dev reg 1) s) = [dropped; v] /\
              uint16_t (RDxBuffer (exec (read_SPI slave dev reg 1) s)) = v).
  { intros dev reg Hd Hreg.
    destruct (read_SPI_selected slave dev reg 1 s Hd)
      as (r0 & lo & hi & Hbus & _ & Hlo & _ & Hraw).
    cbv zeta in Hbus, Hraw.
    change (uint8_t 1 =? 2) with false in Hbus, Hraw. cbv iota in Hbus, Hraw.
    rewrite (emitted_app _ _ _ Hbus), Hraw. exists r0, lo. cbn [mosi miso app].
    rewrite (uint8_t_small reg) by lia.
    rewrite uint8_t_lor_flag
      by (try lia; destruct Hd as [-> | ->]; simpl; lia).
    repeat split. apply uint16_t_small. lia. }
  split.
  - destruct (Hone device WHO_AM_I Hdev ltac:(unfold WHO_AM_I; lia))
      as (dropped & v & Hmosi & Hmiso & Hv).
    exists dropped, v. unfold emitted in *.
    rewrite LSM9DS1_WHO_AM_I_exec, LSM9DS1_WHO_AM_I_result. auto.
  - destruct (Hone AG CTRL_REG5_XL (or_introl eq_refl)
                ltac:(unfold CTRL_REG5_XL; lia))
      as (dropped & v & Hmosi & Hmiso & Hv).
    exists dropped, v.
    destruct (exec_read_then (read_SPI slave AG CTRL_REG5_XL 1) uint16_t s)
      as (Hexec & Hres).
    unfold emitted in *. unfold LSM9DS1_TEST_CMD. rewrite Hexec, Hres. auto.
Qed.

Lemma identification_reads_witness :
  (exists dropped id,
     mosi (emitted (LSM9DS1_WHO_AM_I (replay [0xFF; 0x3D]) M) parked)
       = [Z.lor WHO_AM_I (read_flags M); 0] /\
     miso (emitted (LSM9DS1_WHO_AM_I (replay [0xFF; 0x3D]) M) parked)
       = [dropped; id] /\
     result (LSM9DS1_WHO_AM_I (replay [0xFF; 0x3D]) M) parked = id) /\
  (exists dropped v,
     mosi (emitted (LSM9DS1_TEST_CMD (replay [0xFF; 0x3D])) parked)
       = [Z.lor CTRL_REG5_XL 0x80; 0] /\
     miso (emitted (LSM9DS1_TEST_CMD (replay [0xFF; 0x3D])) parked)
       = [dropped; v] /\
     result (LSM9DS1_TEST_CMD (replay [0xFF; 0x3D])) parked = v).
Proof.
  apply (identification_reads (replay [0xFF; 0x3D]) M parked).
  right. reflexivity.
Defined.

(** ** What a transaction leaves alone *)

Ltac run_call_cbv :=
  cbv - [uint8_t uint16_t Z.land Z.lor Z.lnot Z.shiftl Z.eqb Z.add Z.mul
         Z.le Z.lt Z.testbit app BIT0 BIT1 BIT2];
  repeat match goal with
  | H : (_ =? _) = _ |- _ => rewrite H
  end;
  cbv beta iota.

(** The configuration registers after a call, and the port value in terms of
    the two masks. *)
Lemma run_call_keeps slave (c : call) (s : state) :
  let s' := exec (run_call slave c) s in
  let device := match c with
                | call_read d _ _ => d
                | call_write d _ _ => d
                end in
  P6SEL0 s' = P6SEL0 s /\ P6DIR s' = P6DIR s /\
  CTLW0 s' = CTLW0 s /\ BRW s' = BRW s /\
  (P6OUT s' = P6OUT s \/
   P6OUT s'
     = uint8_t (Z.lor (uint8_t (Z.land (P6OUT s) (assert_mask device)))
                  (release_mask device))) /\
  match c with
  | call_read _ _ _ => True
  | call_write _ _ _ => RDxBuffer s' = RDxBuffer s
  end.
Proof.
  destruct s as [sel dir out ctl brw tx rx rd log].
  destruct c as [device address n | device address data].
  - destruct (uint8_t n =? 2) eqn:Hn; destruct device; run_call_cbv;
      repeat split; auto.
  - destruct device; run_call_cbv; repeat split; auto.
Qed.

Lemma upper_bit_cases (k : Z) :
  3 <= k < 8 -> k = 3 \/ k = 4 \/ k = 5 \/ k = 6 \/ k = 7.
Proof. lia. Qed.

(** X8: no [read_SPI] or [write_SPI], whatever the device value, changes
    P6SEL0, P6DIR, the eUSCI control word or the bit-rate register, and none
    touches pins P6.3 to P6.7 of the output port; [write_SPI] also leaves
    [RDxBuffer] as it was. *)
Theorem transactions_keep_configuration slave (c : call) (k : Z) (s : state) :
  3 <= k < 8 ->
  let s' := exec (run_call slave c) s in
  P6SEL0 s' = P6SEL0 s /\ P6DIR s' = P6DIR s /\
  CTLW0 s' = CTLW0 s /\ BRW s' = BRW s /\
  Z.testbit (P6OUT s') k = Z.testbit (P6OUT s) k /\
  match c with
  | call_read _ _ _ => True
  | call_write _ _ _ => RDxBuffer s' = RDxBuffer s
  end.
Proof.
  intros Hk. cbv zeta.
  destruct (run_call_keeps slave c s) as (H1 & H2 & H3 & H4 & Hport & H6).
  repeat split; try assumption.
  destruct Hport as [-> | ->]; [ reflexivity | ].
  rewrite !uint8_t_bits, Z.lor_spec, uint8_t_bits, Z.land_spec by lia.
  destruct (upper_bit_cases k Hk) as [-> | [-> | [-> | [-> | ->]]]];
    destruct c as [[ | | | ] ? ? | [ | | | ] ? ?];
    cbn [assert_mask release_mask];
    rewrite ?andb_true_r, ?orb_false_r; reflexivity.
Qed.

Lemma transactions_keep_configuration_witness :
  let s' := exec (run_call (replay []) (call_write AG CTRL_REG6_XL 0x40))
              (mkState 0x3C 0x07 0xFF 0xAB42 1 0 0 0x1234 []) in
  P6SEL0 s' = 0x3C /\ P6DIR s' = 0x07 /\
  CTLW0 s' = 0xAB42 /\ BRW s' = 1 /\
  Z.testbit (P6OUT s') 5 = Z.testbit 0xFF 5 /\
  RDxBuffer s' = 0x1234.
Proof.
  apply (transactions_keep_configuration (replay [])
           (call_write AG CTRL_REG6_XL 0x40) 5
           (mkState 0x3C 0x07 0xFF 0xAB42 1 0 0 0x1234 [])).
  lia.
Defined.

(** ** Configuration left by initialisation *)

Lemma calls_keep slave (calls : list call) (t : state) :
  let t' := fold_left (fun u c => exec (run_call slave c) u) calls t in
  P6SEL0 t' = P6SEL0 t /\ P6DIR t' = P6DIR t /\
  CTLW0 t' = CTLW0 t /\ BRW t' = BRW t /\
  (Forall (fun c => match c with
                    | call_write _ _ _ => True
                    | call_read _ _ _ => False
                    end) calls ->
   RDxBuffer t' = RDxBuffer t).
Proof.
  cbv zeta. revert t. induction calls as [ | c calls IH]; intros t.
  - cbn [fold_left]. auto.
  - cbn [fold_left].
    destruct (IH (exec (run_call slave c) t)) as (-> & -> & -> & -> & Hrd).
    destruct (run_call_keeps slave c t) as (-> & -> & -> & -> & _ & Hw).
    repeat split. intros Hall. inversion Hall as [ | ? ? Hc Hrest]; subst.
    rewrite (Hrd Hrest). destruct c; [ contradiction | exact Hw ].
Qed.

(** X9: whatever the registers hold beforehand, [LSM9DS1_Init] leaves the
    eUSCI control word equal to master | synchronous | MSB first | 4-pin
    mode | STE enable | clock phase | ACLK with the reset bit released, the
    bit-rate divider at 1, P6.0 to P6.2 as outputs and P6.2 to P6.5 on their
    module function with the other bits of both registers untouched; the six
    register writes disturb none of this, and [RDxBuffer] is not written. *)
Theorem LSM9DS1_Init_configuration slave (s : state) :
  let s' := exec (LSM9DS1_Init slave) s in
  CTLW0 s'
    = Z.lor (Z.lor (Z.lor (Z.lor (Z.lor (Z.lor
        EUSCI_B_CTLW0_MST EUSCI_B_CTLW0_SYNC) EUSCI_B_CTLW0_MSB)
        EUSCI_B_CTLW0_MODE_1) EUSCI_B_CTLW0_STEM) EUSCI_B_CTLW0_CKPH)
        EUSCI_B_CTLW0_SSEL__ACLK /\
  Z.land (CTLW0 s') EUSCI_B_CTLW0_SWRST = 0 /\
  BRW s' = 1 /\
  P6DIR s' = uint8_t (Z.lor (P6DIR s) 0x07) /\
  P6SEL0 s' = uint8_t (Z.lor (P6SEL0 s) 0x3C) /\
  RDxBuffer s' = RDxBuffer s.
Proof.
  cbv zeta. unfold LSM9DS1_Init, LSM_init. rewrite !exec_seq.
  set (s0 := exec UCB1_init (exec pin_init s)).
  destruct (calls_keep slave
              [ call_write AG CTRL_REG1_G 0x20; call_write AG CTRL_REG6_XL 0x40;
                call_write AG CTRL_REG5_XL 0x38; call_write M CTRL_REG3_M 0x00;
                call_write M CTRL_REG1_M 0x74; call_write M CTRL_REG4_M 0x0C ]
              s0) as (Hsel & Hdir & Hctl & Hbrw & Hrd).
  cbn [fold_left run_call] in Hsel, Hdir, Hctl, Hbrw, Hrd.
  rewrite Hsel, Hdir, Hctl, Hbrw, Hrd by (repeat constructor).
  subst s0. destruct s as [sel dir out ctl brw tx rx rd log].
  repeat split.
Qed.

(** ** No stale data *)

(** X10: [read_SPI] never reads [RDxBuffer] before writing it: running it
    from a state whose [RDxBuffer] was overwritten with any value gives the
    very same final state, so nothing of an earlier read survives into the
    next one. *)
Theorem read_SPI_forgets_buffer slave (device : ss_t)
    (address bytesToRead v : Z) (s : state) :
  exec (read_SPI slave device address bytesToRead) (exec (store_RDxBuffer v) s)
    = exec (read_SPI slave device address bytesToRead) s.
Proof.
  destruct s as [sel dir out ctl brw tx rx rd log].
  destruct (uint8_t bytesToRead =? 2) eqn:Hn; destruct device;
    run_call_cbv; reflexivity.
Qed.

(** * Properties of the application *)

Import App.

(** ** Running programs *)

Lemma pbind_run {T U : Type} (c : prog T) (k : T -> prog U) (a : app) :
  pbind c k a = k (presult c a) (pexec c a).
Proof. unfold pbind, presult, pexec. destruct (c a). reflexivity. Qed.

Lemma pbind_eq {T U : Type} (c : prog T) (k : T -> prog U) (a a' : app)
    (v : T) :
  c a = (v, a') -> pbind c k a = k v a'.
Proof. intros H. unfold pbind. rewrite H. reflexivity. Qed.

Lemma performed_app {T : Type} (c : prog T) (a : app) (acts : list action) :
  actions (pexec c a) = actions a ++ acts -> performed c a = acts.
Proof.
  intros H. unfold performed. rewrite H.
  rewrite skipn_app, skipn_all, Nat.sub_diag. reflexivity.
Qed.

(** Three driver reads stored in the three globals (the shape of
    [getAccelData], [getGyroData] and [getMagData]). *)
Lemma get_three (c1 c2 c3 : drv Z) (a : app) :
  (v <- lift c1 ;; set_x v ;;
   v <- lift c2 ;; set_y v ;;
   v <- lift c3 ;; set_z v)%prog a
  = (tt,
     mkApp (exec c3 (exec c2 (exec c1 (spi a)))) (regs a)
       (int16_t (result c1 (spi a)))
       (int16_t (result c2 (exec c1 (spi a))))
       (int16_t (result c3 (exec c2 (exec c1 (spi a)))))
       (wasInterrupt a) (actions a)).
Proof.
  unfold pbind, lift, set_x, set_y, set_z, exec, result.
  cbn [spi regs x y z wasInterrupt actions].
  destruct (c1 (spi a)) as [v1 s1]. cbn [spi regs x y z wasInterrupt actions fst snd].
  destruct (c2 s1) as [v2 s2]. cbn [spi regs x y z wasInterrupt actions fst snd].
  destruct (c3 s2) as [v3 s3]. reflexivity.
Qed.

Lemma get_one (c1 : drv Z) (a : app) :
  (v <- lift c1 ;; set_x v)%prog a
  = (tt,
     mkApp (exec c1 (spi a)) (regs a) (int16_t (result c1 (spi a)))
       (y a) (z a) (wasInterrupt a) (actions a)).
Proof.
  unfold pbind, lift, set_x, exec, result.
  destruct (c1 (spi a)) as [v1 s1]. reflexivity.
Qed.

Lemma displayData_run (xv yv zv : Z) (device : ss_t) (a : app) :
  displayData xv yv zv device a
  = (tt,
     mkApp (spi a) (regs a) (x a) (y a) (z a) (wasInterrupt a)
       (actions a ++ data_lines xv yv zv device)).
Proof.
  destruct a as [s r xa ya za w acts].
  destruct device; cbv [displayData pbind extern ss_t_eqb spi regs x y z
                         wasInterrupt actions data_lines suffix];
    repeat rewrite <- app_assoc; reflexivity.
Qed.

(** [play_note]: the stores and waits it performs, the registers it
    leaves. *)
Lemma play_note_run (note : Z) (a : app) :
  exists regs',
    play_note note a
    = (tt,
       mkApp (spi a) regs' (x a) (y a) (z a) (wasInterrupt a)
         (actions a ++ beep note (regs a TA0CTL))) /\
    regs' TA0CTL = beep_off (regs a TA0CTL) /\
    regs' TA0CCR0 = uint16_t note mod 2 ^ 16 /\
    regs' TA0CCR1 = uint16_t note / 2 mod 2 ^ 16 /\
    (forall r, r <> TA0CTL -> r <> TA0CCR0 -> r <> TA0CCR1 ->
               regs' r = regs a r).
Proof.
  destruct a as [s r xa ya za w acts].
  eexists. split.
  - cbv [play_note pbind extern rload rstore spi regs x y z wasInterrupt
         actions beep beep_on beep_off width].
    repeat rewrite <- app_assoc. cbn [List.app]. reflexivity.
  - cbn [regs]. repeat split; try reflexivity.
    intros r0 H1 H2 H3.
    repeat match goal with
    | |- context [reg_eq_dec ?p r0] =>
        destruct (reg_eq_dec p r0); [ congruence | ]
    end.
    reflexivity.
Qed.

(** Entry housekeeping of a view, as inlined in each case of the switch. *)
Lemma entry_run (st : states) (a : app) :
  exists regs',
    (extern SSD1306_ClearBuffer ;;
     extern SSD1306_DisplayBuffer ;;
     extern (SSD1306_SetCursor 0 0) ;;
     extern (SSD1306_OutString (title st)) ;;
     play_note HG)%prog a
    = (tt,
       mkApp (spi a) regs' (x a) (y a) (z a) (wasInterrupt a)
         (actions a ++ entry_actions st (regs a TA0CTL))) /\
    regs' TA0CTL = beep_off (regs a TA0CTL) /\
    (forall r, r <> TA0CTL -> r <> TA0CCR0 -> r <> TA0CCR1 ->
               regs' r = regs a r).
Proof.
  destruct a as [s r xa ya za w acts].
  set (a0 := mkApp s r xa ya za w
               (acts ++ [ Lib SSD1306_ClearBuffer; Lib SSD1306_DisplayBuffer;
                          Lib (SSD1306_SetCursor 0 0);
                          Lib (SSD1306_OutString (title st)) ])).
  destruct (play_note_run HG a0) as (regs' & Hplay & Hctl & _ & _ & Hrest).
  exists regs'. split; [ | split; assumption ].
  assert (Hpre :
            forall k : unit -> prog unit,
              (extern SSD1306_ClearBuffer ;;
               extern SSD1306_DisplayBuffer ;;
               extern (SSD1306_SetCursor 0 0) ;;
               v <- extern (SSD1306_OutString (title st)) ;; k v)%prog
                (mkApp s r xa ya za w acts)
              = k tt a0).
  { intros k. subst a0. cbv [pbind extern spi regs x y z wasInterrupt actions].
    repeat rewrite <- app_assoc. reflexivity. }
  rewrite (Hpre (fun _ => play_note HG)), Hplay. subst a0.
  cbn [spi regs x y z wasInterrupt actions]. unfold entry_actions.
  rewrite <- app_assoc. reflexivity.
Qed.

(** The states of the driver after an accessor and after the read it
    performs are the same. *)
Lemma accessor_states slave (s : state) :
  exec (LSM9DS1_XA slave) s = exec (read_SPI slave AG OUT_X_L_XL 2) s /\
  exec (LSM9DS1_YA slave) s = exec (read_SPI slave AG OUT_Y_L_XL 2) s /\
  exec (LSM9DS1_ZA slave) s = exec (read_SPI slave AG OUT_Z_L_XL 2) s /\
  exec (LSM9DS1_XG slave) s = exec (read_SPI slave AG OUT_X_L_G 2) s /\
  exec (LSM9DS1_YG slave) s = exec (read_SPI slave AG OUT_Y_L_G 2) s /\
  exec (LSM9DS1_ZG slave) s = exec (read_SPI slave AG OUT_Z_L_G 2) s /\
  exec (LSM9DS1_XM slave) s = exec (read_SPI slave M OUT_X_L_M 2) s /\
  exec (LSM9DS1_YM slave) s = exec (read_SPI slave M OUT_Y_L_M 2) s /\
  exec (LSM9DS1_ZM slave) s = exec (read_SPI slave M OUT_Z_L_M 2) s /\
  exec (LSM9DS1_TMP slave) s = exec (read_SPI slave AG OUT_TEMP_L 2) s.
Proof.
  do 9 (split; [ exact (proj1 (exec_read_then _ _ s)) | ]).
  exact (proj1 (exec_read_then _ _ s)).
Qed.

Lemma after_reads_eq slave (st : states) (s : state) :
  after_reads slave st s
  = match st with
    | ACCELEROMETER =>
        exec (LSM9DS1_ZA slave)
          (exec (LSM9DS1_YA slave) (exec (LSM9DS1_XA slave) s))
    | GYROSCOPE =>
        exec (LSM9DS1_ZG slave)
          (exec (LSM9DS1_YG slave) (exec (LSM9DS1_XG slave) s))
    | MAGNETOMETER =>
        exec (LSM9DS1_ZM slave)
          (exec (LSM9DS1_YM slave) (exec (LSM9DS1_XM slave) s))
    | THERMOMETER => exec (LSM9DS1_TMP slave) s
    end.
Proof.
  unfold after_reads.
  destruct st; cbn [reads_of fold_left run_call];
    repeat match goal with
    | |- context [exec (?acc slave) ?t] =>
        lazymatch acc with
        | read_SPI => fail
        | _ => idtac
        end;
        let H := fresh in
        pose proof (accessor_states slave t) as H;
        decompose [and] H; clear H;
        match goal with
        | E : exec (acc slave) t = _ |- _ => rewrite E
        end;
        repeat match goal with
        | E : exec _ t = _ |- _ => clear E
        end
    end; reflexivity.
Qed.

Lemma pbind_assoc {T U V : Type} (c : prog T) (k : T -> prog U)
    (h : U -> prog V) (a : app) :
  pbind (pbind c k) h a = pbind c (fun v => pbind (k v) h) a.
Proof. unfold pbind. destruct (c a). reflexivity. Qed.

Lemma lift_run {T : Type} (c : drv T) (a : app) :
  lift c a
  = (result c (spi a),
     mkApp (exec c (spi a)) (regs a) (x a) (y a) (z a) (wasInterrupt a)
       (actions a)).
Proof. unfold lift, result, exec. destruct (c (spi a)). reflexivity. Qed.

(** One step of a program, chosen by the command at its head. *)
Ltac prog_step :=
  lazymatch goal with
  | |- pbind (pbind _ _) _ _ = _ => rewrite pbind_assoc
  | |- pbind (lift ?c) ?k ?a = _ =>
      rewrite (pbind_eq (lift c) k a _ _ (lift_run c a))
  | |- pbind (displayData ?sl ?xv ?yv ?zv ?d) ?k ?a = _ =>
      rewrite (pbind_eq _ k a _ _ (displayData_run sl xv yv zv d a))
  | |- pbind (displayData ?xv ?yv ?zv ?d) ?k ?a = _ =>
      rewrite (pbind_eq _ k a _ _ (displayData_run xv yv zv d a))
  | |- pbind (extern ?l) ?k ?a = _ =>
      rewrite (pbind_eq (extern l) k a _ _ eq_refl)
  | |- pbind (get ?f) ?k ?a = _ =>
      rewrite (pbind_eq (get f) k a _ _ eq_refl)
  | |- pbind (set_x ?v) ?k ?a = _ =>
      rewrite (pbind_eq (set_x v) k a _ _ eq_refl)
  | |- pbind (set_y ?v) ?k ?a = _ =>
      rewrite (pbind_eq (set_y v) k a _ _ eq_refl)
  | |- pbind (set_z ?v) ?k ?a = _ =>
      rewrite (pbind_eq (set_z v) k a _ _ eq_refl)
  | |- pbind (set_wasInterrupt ?v) ?k ?a = _ =>
      rewrite (pbind_eq (set_wasInterrupt v) k a _ _ eq_refl)
  | |- pbind (pret ?v) ?k ?a = _ =>
      rewrite (pbind_eq (pret v) k a _ _ eq_refl)
  end;
  cbn [spi regs x y z wasInterrupt actions fst snd].

(** One pass of the loop: the new locals and the machine it leaves. *)
Lemma loop_body_run slave (st pv : states) (a : app) :
  exists regs' xv yv zv,
    loop_body slave st pv a
    = ((if wasInterrupt a then advance st else st, st),
       mkApp (after_reads slave st (spi a)) regs' xv yv zv false
         (actions a
          ++ (if states_eqb st pv then []
              else entry_actions st (regs a TA0CTL))
          ++ view_actions st xv yv zv
          ++ [Lib (Clock_Delay1ms 100)])) /\
    xv = match st with
         | ACCELEROMETER => int16_t (result (LSM9DS1_XA slave) (spi a))
         | GYROSCOPE => int16_t (result (LSM9DS1_XG slave) (spi a))
         | MAGNETOMETER => int16_t (result (LSM9DS1_XM slave) (spi a))
         | THERMOMETER => int16_t (result (LSM9DS1_TMP slave) (spi a))
         end /\
    yv = match st with
         | ACCELEROMETER =>
             int16_t (result (LSM9DS1_YA slave)
                        (exec (LSM9DS1_XA slave) (spi a)))
         | GYROSCOPE =>
             int16_t (result (LSM9DS1_YG slave)
                        (exec (LSM9DS1_XG slave) (spi a)))
         | MAGNETOMETER =>
             int16_t (result (LSM9DS1_YM slave)
                        (exec (LSM9DS1_XM slave) (spi a)))
         | THERMOMETER => y a
         end /\
    zv = match st with
         | ACCELEROMETER =>
             int16_t (result (LSM9DS1_ZA slave)
                        (exec (LSM9DS1_YA slave)
                           (exec (LSM9DS1_XA slave) (spi a))))
         | GYROSCOPE =>
             int16_t (result (LSM9DS1_ZG slave)
                        (exec (LSM9DS1_YG slave)
                           (exec (LSM9DS1_XG slave) (spi a))))
         | MAGNETOMETER =>
             int16_t (result (LSM9DS1_ZM slave)
                        (exec (LSM9DS1_YM slave)
                           (exec (LSM9DS1_XM slave) (spi a))))
         | THERMOMETER => z a
         end /\
    (forall r, r <> TA0CTL -> r <> TA0CCR0 -> r <> TA0CCR1 ->
               regs' r = regs a r) /\
    (states_eqb st pv = true -> forall r, regs' r = regs a r) /\
    (states_eqb st pv = false -> regs' TA0CTL = beep_off (regs a TA0CTL)).
Proof.
  destruct (entry_run st a) as (regs1 & Hentry & Hctl & Hrest).
  rewrite (after_reads_eq slave st (spi a)).
  destruct a as [s r xa ya za w acts].
  cbn [spi regs x y z wasInterrupt actions] in *.
  destruct (states_eqb st pv) eqn:Hnew;
    [ exists r | exists regs1 ];
    do 3 eexists;
    (split; [ | split; [ reflexivity | split; [ reflexivity |
                split; [ reflexivity
                       | repeat split; intros; congruence || auto ] ] ] ]).
  - destruct st; destruct w;
      unfold loop_body, getAccelData, getGyroData, getMagData;
      rewrite Hnew;
      cbn [negb view_actions advance fst snd];
      repeat prog_step; unfold pret; cbn [List.app];
      repeat rewrite <- app_assoc; reflexivity.
  - destruct st; destruct w;
      cbn [title] in Hentry;
      unfold loop_body, getAccelData, getGyroData, getMagData;
      rewrite Hnew;
      cbn [negb view_actions advance fst snd];
      rewrite pbind_assoc;
      rewrite (pbind_eq _ _ _ _ _ Hentry);
      repeat prog_step; unfold pret; cbn [List.app];
      repeat rewrite <- app_assoc; reflexivity.
Qed.

Lemma shown_app (xs ys : list action) : shown (xs ++ ys) = shown xs ++ shown ys.
Proof.
  induction xs as [ | [[ | | | | | | | | | | ] | ] xs IH]; cbn [shown List.app];
    rewrite ?IH; reflexivity.
Qed.

Lemma shown_entry (st : states) (ta0ctl : Z) :
  shown (entry_actions st ta0ctl) = [].
Proof. reflexivity. Qed.

(** ** One pass of the loop seen from outside *)

(** X11: what a pass of the main loop does outside the SPI bus.  In every
    view it shows the current readings and ends by waiting 100 ms; the
    display is cleared, the title drawn and the buzzer sounded only when the
    view differs from the one of the previous pass, and then before anything
    else.  A pass in an unchanged view stores to no peripheral register. *)
Theorem pass_actions slave (st pv : states) (a : app) :
  let a' := pexec (loop_body slave st pv) a in
  performed (loop_body slave st pv) a
    = (if states_eqb st pv then [] else entry_actions st (regs a TA0CTL))
      ++ view_actions st (x a') (y a') (z a')
      ++ [Lib (Clock_Delay1ms 100)] /\
  (states_eqb st pv = true ->
   stores (performed (loop_body slave st pv) a) = [] /\
   forall r, regs a' r = regs a r).
Proof.
  destruct (loop_body_run slave st pv a)
    as (regs' & xv & yv & zv & Hrun & _ & _ & _ & _ & Hsame & _).
  cbv zeta. unfold performed, pexec. rewrite Hrun.
  cbn [snd spi regs x y z wasInterrupt actions].
  rewrite skipn_app, skipn_all, Nat.sub_diag. cbn [skipn List.app].
  split; [ reflexivity | ].
  intros Heq. rewrite Heq. split; [ | exact (Hsame Heq) ].
  cbn [List.app]. destruct st; reflexivity.
Qed.

Lemma pass_actions_witness :
  let a' := pexec (loop_body (replay []) GYROSCOPE GYROSCOPE) power_up in
  states_eqb GYROSCOPE GYROSCOPE = true /\
  performed (loop_body (replay []) GYROSCOPE GYROSCOPE) power_up
    = (if states_eqb GYROSCOPE GYROSCOPE then []
       else entry_actions GYROSCOPE (regs power_up TA0CTL))
      ++ view_actions GYROSCOPE (x a') (y a') (z a')
      ++ [Lib (Clock_Delay1ms 100)] /\
  (states_eqb GYROSCOPE GYROSCOPE = true ->
   stores (performed (loop_body (replay []) GYROSCOPE GYROSCOPE) power_up)
     = [] /\
   forall r, regs a' r = regs power_up r).
Proof.
  cbv zeta. split; [ reflexivity | ].
  apply (pass_actions (replay []) GYROSCOPE GYROSCOPE power_up).
Defined.

(** ** The button and the view cycle *)

Lemma PORT1_IRQHandler_run (a : app) :
  exists regs',
    PORT1_IRQHandler a
    = (tt,
       mkApp (spi a) regs' (x a) (y a) (z a) true
         (actions a ++ [Store P1IFG 0])) /\
    regs' P1IFG = 0 /\
    (forall r, r <> P1IFG -> regs' r = regs a r).
Proof.
  destruct a as [s r xa ya za w acts]. eexists. split.
  - cbv [PORT1_IRQHandler pbind set_wasInterrupt rload rstore spi regs x y z
         wasInterrupt actions width].
    rewrite Z.land_0_r. reflexivity.
  - cbn [regs]. split; [ reflexivity | ].
    intros r0 Hr0. destruct (reg_eq_dec P1IFG r0); congruence.
Qed.

Lemma loop_body_result slave (st pv : states) (a : app) :
  presult (loop_body slave st pv) a
    = (if wasInterrupt a then advance st else st, st) /\
  wasInterrupt (pexec (loop_body slave st pv) a) = false.
Proof.
  destruct (loop_body_run slave st pv a)
    as (regs' & xv & yv & zv & Hrun & _).
  unfold presult, pexec. rewrite Hrun. split; reflexivity.
Qed.

Lemma presses_run slave (n : nat) (st pv : states) (a : app) :
  exists a',
    main_loop slave (repeat press n) st pv a = ((st, pv), a') /\
    wasInterrupt a' = match n with
                      | O => wasInterrupt a
                      | S _ => true
                      end.
Proof.
  revert a. induction n as [ | n IH]; intros a.
  - exists a. split; reflexivity.
  - destruct (PORT1_IRQHandler_run a) as (regs' & Hirq & _).
    destruct (IH (mkApp (spi a) regs' (x a) (y a) (z a) true
                    (actions a ++ [Store P1IFG 0]))) as (a' & Hrun & Hflag).
    exists a'. cbn [repeat main_loop].
    rewrite (pbind_eq _ _ _ _ _ Hirq). split; [ exact Hrun | ].
    rewrite Hflag. destruct n; reflexivity.
Qed.

Lemma main_loop_app slave (t1 t2 : list tick) (st pv : states) (a : app) :
  main_loop slave (t1 ++ t2) st pv a
  = main_loop slave t2
      (fst (presult (main_loop slave t1 st pv) a))
      (snd (presult (main_loop slave t1 st pv) a))
      (pexec (main_loop slave t1 st pv) a).
Proof.
  revert st pv a. induction t1 as [ | [ | ] t1 IH]; intros st pv a.
  - reflexivity.
  - cbn [List.app main_loop]. rewrite !pbind_run.
    rewrite IH. unfold presult, pexec. rewrite !pbind_run. reflexivity.
  - cbn [List.app main_loop]. rewrite !pbind_run.
    rewrite IH. unfold presult, pexec. rewrite !pbind_run. reflexivity.
Qed.

Lemma main_loop_turn slave (st pv : states) (a : app) :
  main_loop slave [turn] st pv a = loop_body slave st pv a.
Proof.
  cbn [main_loop]. rewrite pbind_run. unfold pret, presult, pexec.
  destruct (loop_body slave st pv a) as [[st' pv'] a']. reflexivity.
Qed.

(** X12: the button advances the view in the fixed cycle accelerometer,
    gyroscope, magnetometer, thermometer and back.  A press is remembered
    until the next pass of the loop, which consumes it; any number of presses
    before one pass advance the view once; without a pending press the view
    stays.  Four presses, each followed by a pass, bring back the first
    view. *)
Theorem view_cycle slave (st pv : states) (a : app) :
  (forall n : nat,
     let run := main_loop slave (repeat press n ++ [turn]) st pv in
     presult run a
       = (match n with
          | O => if wasInterrupt a then advance st else st
          | S _ => advance st
          end, st) /\
     wasInterrupt (pexec run a) = false) /\
  presult
    (main_loop slave [press; turn; press; turn; press; turn; press; turn]
       st pv) a
    = (st, advance (advance (advance st))) /\
  advance st <> st.
Proof.
  assert (Hpt : forall n st0 pv0 a0,
            presult (main_loop slave (repeat press n ++ [turn]) st0 pv0) a0
              = (match n with
                 | O => if wasInterrupt a0 then advance st0 else st0
                 | S _ => advance st0
                 end, st0) /\
            wasInterrupt
              (pexec (main_loop slave (repeat press n ++ [turn]) st0 pv0) a0)
              = false).
  { intros n st0 pv0 a0.
    destruct (presses_run slave n st0 pv0 a0) as (a' & Hrun & Hflag).
    unfold presult, pexec. rewrite main_loop_app.
    unfold presult, pexec. rewrite Hrun. cbn [fst snd].
    rewrite main_loop_turn.
    destruct (loop_body_result slave st0 pv0 a') as (Hres & Hw).
    unfold presult, pexec in Hres, Hw. rewrite Hres, Hw, Hflag.
    destruct n; split; reflexivity. }
  split; [ intros n; apply Hpt | ]. split; [ | destruct st; discriminate ].
  assert (Hstep : forall rest st0 pv0 a0,
            exists a1,
              main_loop slave (press :: turn :: rest) st0 pv0 a0
              = main_loop slave rest (advance st0) st0 a1).
  { intros rest st0 pv0 a0.
    change (press :: turn :: rest) with ((repeat press 1 ++ [turn]) ++ rest).
    rewrite main_loop_app.
    destruct (Hpt 1%nat st0 pv0 a0) as (-> & _). cbn [fst snd].
    eexists. reflexivity. }
  unfold presult.
  destruct (Hstep [press; turn; press; turn; press; turn] st pv a)
    as (a1 & ->).
  destruct (Hstep [press; turn; press; turn] (advance st) st a1) as (a2 & ->).
  destruct (Hstep [press; turn] (advance (advance st)) (advance st) a2)
    as (a3 & ->).
  destruct (Hstep [] (advance (advance (advance st))) (advance (advance st))
              a3) as (a4 & ->).
  destruct st; reflexivity.
Qed.

(** ** What the display is given *)

(** Ranges of the values the accessors return. *)
Lemma reading_bounds slave (s : state) :
  (-1998 <= result (LSM9DS1_XA slave) s <= 1998 /\
   -1998 <= result (LSM9DS1_YA slave) s <= 1998 /\
   -1998 <= result (LSM9DS1_ZA slave) s <= 1998) /\
  (-32768 <= result (LSM9DS1_XG slave) s <= 32767 /\
   -32768 <= result (LSM9DS1_YG slave) s <= 32767 /\
   -32768 <= result (LSM9DS1_ZG slave) s <= 32767) /\
  (-4587 <= result (LSM9DS1_XM slave) s <= 4587 /\
   -4587 <= result (LSM9DS1_YM slave) s <= 4587 /\
   -4587 <= result (LSM9DS1_ZM slave) s <= 4587) /\
  -20480 <= result (LSM9DS1_TMP slave) s <= 20479.
Proof.
  assert (Hq : forall r num den lo hi,
            0 < den -> 0 <= num <= den ->
            Z.quot (-32768 * num) den = lo -> Z.quot (32767 * num) den = hi ->
            lo <= int16_t (Z.quot (int16_t r * num) den) <= hi).
  { intros r num den lo hi Hden Hnum <- <-.
    rewrite scale_fits by (try lia; apply int16_t_range).
    apply quot_between; try lia. apply int16_t_range. }
  repeat split;
    first [ accessor_run LSM9DS1_XA | accessor_run LSM9DS1_YA
          | accessor_run LSM9DS1_ZA | accessor_run LSM9DS1_XG
          | accessor_run LSM9DS1_YG | accessor_run LSM9DS1_ZG
          | accessor_run LSM9DS1_XM | accessor_run LSM9DS1_YM
          | accessor_run LSM9DS1_ZM | accessor_run LSM9DS1_TMP ];
    first [ apply int16_t_range
          | apply (Hq _ 61 1000 (-1998) 1998); lia || reflexivity
          | apply (Hq _ 14 100 (-4587) 4587); lia || reflexivity
          | apply (Hq _ 10 16 (-20480) 20479); lia || reflexivity ].
Qed.

Lemma loop_body_shown slave (st pv : states) (a : app) :
  let a' := pexec (loop_body slave st pv) a in
  shown (performed (loop_body slave st pv) a)
    = shown (view_actions st (x a') (y a') (z a')) /\
  x a' = match st with
         | ACCELEROMETER => int16_t (result (LSM9DS1_XA slave) (spi a))
         | GYROSCOPE => int16_t (result (LSM9DS1_XG slave) (spi a))
         | MAGNETOMETER => int16_t (result (LSM9DS1_XM slave) (spi a))
         | THERMOMETER => int16_t (result (LSM9DS1_TMP slave) (spi a))
         end /\
  y a' = match st with
         | ACCELEROMETER =>
             int16_t (result (LSM9DS1_YA slave)
                        (exec (LSM9DS1_XA slave) (spi a)))
         | GYROSCOPE =>
             int16_t (result (LSM9DS1_YG slave)
                        (exec (LSM9DS1_XG slave) (spi a)))
         | MAGNETOMETER =>
             int16_t (result (LSM9DS1_YM slave)
                        (exec (LSM9DS1_XM slave) (spi a)))
         | THERMOMETER => y a
         end /\
  z a' = match st with
         | ACCELEROMETER =>
             int16_t (result (LSM9DS1_ZA slave)
                        (exec (LSM9DS1_YA slave)
                           (exec (LSM9DS1_XA slave) (spi a))))
         | GYROSCOPE =>
             int16_t (result (LSM9DS1_ZG slave)
                        (exec (LSM9DS1_YG slave)
                           (exec (LSM9DS1_XG slave) (spi a))))
         | MAGNETOMETER =>
             int16_t (result (LSM9DS1_ZM slave)
                        (exec (LSM9DS1_YM slave)
                           (exec (LSM9DS1_XM slave) (spi a))))
         | THERMOMETER => z a
         end.
Proof.
  destruct (loop_body_run slave st pv a)
    as (regs' & xv & yv & zv & Hrun & Hxv & Hyv & Hzv & _).
  cbv zeta. unfold performed, pexec. rewrite Hrun.
  cbn [snd spi regs x y z wasInterrupt actions].
  rewrite skipn_app, skipn_all, Nat.sub_diag. cbn [skipn List.app].
  split; [ | split; [ exact Hxv | split; [ exact Hyv | exact Hzv ] ] ].
  rewrite !shown_app.
  destruct (states_eqb st pv); rewrite ?shown_entry; cbn [shown List.app];
    rewrite app_nil_r; reflexivity.
Qed.

Lemma quot_100_bounds (v lo hi : Z) :
  lo <= v <= hi -> Z.quot lo 100 <= Z.quot v 100 <= Z.quot hi 100.
Proof. intros H. split; apply Z.quot_le_mono; lia. Qed.

(** X13: the numbers shown in the accelerometer, gyroscope and thermometer
    views.  The acceleration and rate views show each reading divided by 100
    (truncated toward zero), so tenths of a g between -19 and 19 and tenths
    of a degree per second between -327 and 327; the thermometer view shows
    the temperature reading itself, between -20480 and 20479, and leaves the
    globals y and z as the previous view left them. *)
Theorem displayed_values slave (pv : states) (a : app) :
  (let a' := pexec (loop_body slave ACCELEROMETER pv) a in
   shown (performed (loop_body slave ACCELEROMETER pv) a)
     = [Z.quot (x a') 100; Z.quot (y a') 100; Z.quot (z a') 100] /\
   Forall (fun d => -19 <= d <= 19)
     (shown (performed (loop_body slave ACCELEROMETER pv) a))) /\
  (let a' := pexec (loop_body slave GYROSCOPE pv) a in
   shown (performed (loop_body slave GYROSCOPE pv) a)
     = [Z.quot (x a') 100; Z.quot (y a') 100; Z.quot (z a') 100] /\
   Forall (fun d => -327 <= d <= 327)
     (shown (performed (loop_body slave GYROSCOPE pv) a))) /\
  (let a' := pexec (loop_body slave THERMOMETER pv) a in
   shown (performed (loop_body slave THERMOMETER pv) a) = [x a'] /\
   -20480 <= x a' <= 20479 /\
   y a' = y a /\ z a' = z a).
Proof.
  assert (Hdiv : forall v lo hi qlo qhi,
            lo <= v <= hi -> Z.quot lo 100 = qlo -> Z.quot hi 100 = qhi ->
            -32768 <= qlo -> qhi <= 32767 ->
            int16_t (Z.quot v 100) = Z.quot v 100 /\
            qlo <= Z.quot v 100 <= qhi).
  { intros v lo hi qlo qhi Hv <- <- Hlo Hhi.
    pose proof (quot_100_bounds v lo hi Hv) as Hq.
    split; [ apply int16_t_small; lia | exact Hq ]. }
  split; [ | split ].
  - destruct (loop_body_shown slave ACCELEROMETER pv a) as (Hshown & Hx & Hy & Hz).
    cbv zeta in *. rewrite Hshown.
    cbv beta iota in Hx, Hy, Hz.
    destruct (reading_bounds slave (spi a)) as ((Bx & _ & _) & _).
    destruct (reading_bounds slave (exec (LSM9DS1_XA slave) (spi a)))
      as ((_ & By & _) & _).
    destruct (reading_bounds slave
                (exec (LSM9DS1_YA slave) (exec (LSM9DS1_XA slave) (spi a))))
      as ((_ & _ & Bz) & _).
    rewrite int16_t_small in Hx, Hy, Hz by lia.
    cbn [view_actions data_lines shown].
    destruct (Hdiv _ (-1998) 1998 (-19) 19 Bx eq_refl eq_refl) as (Ex & Rx);
      try lia.
    destruct (Hdiv _ (-1998) 1998 (-19) 19 By eq_refl eq_refl) as (Ey & Ry);
      try lia.
    destruct (Hdiv _ (-1998) 1998 (-19) 19 Bz eq_refl eq_refl) as (Ez & Rz);
      try lia.
    rewrite Hx, Hy, Hz, Ex, Ey, Ez.
    split; [ reflexivity | repeat constructor; lia ].
  - destruct (loop_body_shown slave GYROSCOPE pv a) as (Hshown & Hx & Hy & Hz).
    cbv zeta in *. rewrite Hshown.
    cbv beta iota in Hx, Hy, Hz.
    pose proof (int16_t_range (result (LSM9DS1_XG slave) (spi a))) as Bx.
    pose proof (int16_t_range
                  (result (LSM9DS1_YG slave)
                     (exec (LSM9DS1_XG slave) (spi a)))) as By.
    pose proof (int16_t_range
                  (result (LSM9DS1_ZG slave)
                     (exec (LSM9DS1_YG slave)
                        (exec (LSM9DS1_XG slave) (spi a))))) as Bz.
    cbn [view_actions data_lines shown].
    destruct (Hdiv _ (-32768) 32767 (-327) 327 Bx eq_refl eq_refl)
      as (Ex & Rx); try lia.
    destruct (Hdiv _ (-32768) 32767 (-327) 327 By eq_refl eq_refl)
      as (Ey & Ry); try lia.
    destruct (Hdiv _ (-32768) 32767 (-327) 327 Bz eq_refl eq_refl)
      as (Ez & Rz); try lia.
    rewrite Hx, Hy, Hz, Ex, Ey, Ez.
    split; [ reflexivity | repeat constructor; lia ].
  - destruct (loop_body_shown slave THERMOMETER pv a) as (Hshown & Hx & Hy & Hz).
    cbv zeta in *. rewrite Hshown.
    cbv beta iota in Hx, Hy, Hz.
    destruct (reading_bounds slave (spi a)) as (_ & _ & _ & Bt).
    rewrite int16_t_small in Hx by lia.
    cbn [view_actions shown]. rewrite Hx.
    split; [ reflexivity | ]. split; [ exact Bt | ]. split; assumption.
Qed.

Lemma times_10_fits_iff (v : Z) :
  int16_t (v * 10) = v * 10 <-> -3276 <= v <= 3276.
Proof. rewrite int16_t_fixed_iff. lia. Qed.

(** X14: the magnetometer view hands the display each reading times 10
    converted to [int16_t].  The readings lie between -4587 and 4587, and the
    number shown is ten times the reading exactly when the reading lies
    between -3276 and 3276; a larger field is shown wrapped (a reading of
    4587, from the raw sample 0x7FFF, is shown as -19666). *)
Theorem magnetometer_display slave (pv : states) (a : app) :
  (let a' := pexec (loop_body slave MAGNETOMETER pv) a in
   shown (performed (loop_body slave MAGNETOMETER pv) a)
     = [int16_t (x a' * 10); int16_t (y a' * 10); int16_t (z a' * 10)] /\
   Forall (fun v => -4587 <= v <= 4587 /\
                    (int16_t (v * 10) = v * 10 <-> -3276 <= v <= 3276))
     [x a'; y a'; z a']) /\
  (let a' := pexec (loop_body (replay [0xFF; 0xFF; 0x7F]) MAGNETOMETER pv)
               power_up in
   x a' = 4587 /\
   hd_error
     (shown (performed (loop_body (replay [0xFF; 0xFF; 0x7F]) MAGNETOMETER pv)
               power_up))
     = Some (-19666)).
Proof.
  split.
  - destruct (loop_body_shown slave MAGNETOMETER pv a) as (Hshown & Hx & Hy & Hz).
    cbv zeta in *. rewrite Hshown.
    cbv beta iota in Hx, Hy, Hz.
    destruct (reading_bounds slave (spi a)) as (_ & _ & (Bx & _ & _) & _).
    destruct (reading_bounds slave (exec (LSM9DS1_XM slave) (spi a)))
      as (_ & _ & (_ & By & _) & _).
    destruct (reading_bounds slave
                (exec (LSM9DS1_YM slave) (exec (LSM9DS1_XM slave) (spi a))))
      as (_ & _ & (_ & _ & Bz) & _).
    rewrite int16_t_small in Hx, Hy, Hz by lia.
    cbn [view_actions data_lines shown].
    split; [ reflexivity | ].
    rewrite Hx, Hy, Hz.
    repeat constructor; try lia; apply times_10_fits_iff; assumption.
  - destruct pv; vm_compute; split; reflexivity.
Qed.

(** ** The bus traffic of the whole program *)

Lemma frame_only_then (p q : prog unit) (g : state -> state) :
  frame_only p (fun s => s) -> frame_only q g ->
  frame_only (p ;; q)%prog g.
Proof.
  intros Hp Hq a. unfold pexec. rewrite (pbind_eq _ _ _ _ _ (Hp a)).
  rewrite (Hq _). reflexivity.
Qed.


Lemma frame_only_rload (r : reg) (k : Z -> prog unit) (f : state -> state) :
  (forall v, frame_only (k v) f) -> frame_only (v <- rload r ;; k v)%prog f.
Proof.
  intros Hk a. unfold pexec.
  rewrite (pbind_eq (rload r) _ a a (regs a r) eq_refl).
  apply Hk.
Qed.

Lemma frame_only_rstore (r : reg) (v : Z) : frame_only (rstore r v) (fun s => s).
Proof. intros a. reflexivity. Qed.

Lemma frame_only_extern (c : libcall) : frame_only (extern c) (fun s => s).
Proof. intros a. reflexivity. Qed.


Ltac frame_prog :=
  repeat (cbv beta;
          lazymatch goal with
          | |- frame_only (rstore _ _) _ => apply frame_only_rstore
          | |- frame_only (extern _) _ => apply frame_only_extern
          | |- frame_only (pbind (rload _) _) _ =>
              apply frame_only_rload; intros ?
          | |- frame_only (pbind _ _) _ => apply frame_only_then
          end).






(** ** The buzzer *)

(** Evaluate [Z.testbit] through masks, reductions modulo a power of two and
    constants. *)
Ltac bit_eval :=
  repeat first
    [ rewrite Z.testbit_mod_pow2 by lia
    | rewrite Z.land_spec
    | rewrite Z.lor_spec
    | rewrite Z.lnot_spec by lia ];
  repeat match goal with
  | |- context [Z.testbit ?c ?n] =>
      lazymatch c with
      | Zpos _ => idtac
      | Z0 => idtac
      end;
      lazymatch n with
      | Zpos _ => idtac
      | Z0 => idtac
      end;
      let b := eval vm_compute in (Z.testbit c n) in
      change (Z.testbit c n) with b
  | |- context [Z.ltb ?i ?n] =>
      lazymatch i with
      | Zpos _ => idtac
      | Z0 => idtac
      end;
      let b := eval vm_compute in (Z.ltb i n) in
      change (Z.ltb i n) with b
  end;
  cbn [andb orb negb].

Lemma field2_zero (v lo : Z) :
  field2 v lo = 0 <-> Z.testbit v lo = false /\ Z.testbit v (lo + 1) = false.
Proof.
  unfold field2.
  destruct (Z.testbit v lo), (Z.testbit v (lo + 1)); cbn [Z.b2z];
    split; intros H; try lia; try (destruct H; discriminate); auto.
Qed.

(** X16: whatever TA0CTL holds before, [piezo_init] leaves timer A0
    stopped (mode 0), clocked from SMCLK (source 2) with divider field 0. *)
Theorem piezo_init_timer (a : app) :
  let c := regs (pexec piezo_init a) TA0CTL in
  timer_mode c = 0 /\ timer_divider c = 0 /\ timer_source c = 2.
Proof.
  destruct a as [s r xa ya za w acts]. cbv zeta.
  change (regs (pexec piezo_init (mkApp s r xa ya za w acts)) TA0CTL)
    with (Z.land (Z.lor (r TA0CTL) 0x0200 mod 2 ^ 16) (Z.lnot 0x01F0)
          mod 2 ^ 16).
  unfold timer_mode, timer_divider, timer_source, field2.
  change (4 + 1) with 5. change (6 + 1) with 7. change (8 + 1) with 9.
  bit_eval. rewrite !andb_false_r, ?orb_true_r. repeat split.
Qed.

Lemma sixteen_cases (k : Z) :
  0 <= k < 16 ->
  k = 0 \/ k = 1 \/ k = 2 \/ k = 3 \/ k = 4 \/ k = 5 \/ k = 6 \/ k = 7 \/
  k = 8 \/ k = 9 \/ k = 10 \/ k = 11 \/ k = 12 \/ k = 13 \/ k = 14 \/ k = 15.
Proof. lia. Qed.

(** X17: called with the timer stopped (as [piezo_init] and every earlier
    [play_note] leave it), [play_note] loads the period with the note and the
    compare register with half of it, runs the timer in up mode for a 50 ms
    wait, stops it and waits 50 ms more; no other bit of TA0CTL changes. *)
Theorem play_note_beep (note : Z) (a : app) :
  timer_mode (regs a TA0CTL) = 0 ->
  let c := regs a TA0CTL in
  let a' := pexec (play_note note) a in
  performed (play_note note) a
    = [ Store TA0CCR0 (uint16_t note); Store TA0CCR1 (uint16_t note / 2);
        Store TA0CTL (beep_on c); Lib (Clock_Delay1ms 50);
        Store TA0CTL (beep_off c); Lib (Clock_Delay1ms 50) ] /\
  timer_mode (beep_on c) = 1 /\
  regs a' TA0CTL = beep_off c /\
  timer_mode (regs a' TA0CTL) = 0 /\
  regs a' TA0CCR0 = uint16_t note /\
  regs a' TA0CCR1 = uint16_t note / 2 /\
  (forall k, 0 <= k < 16 -> k <> 4 -> k <> 5 ->
     Z.testbit (regs a' TA0CTL) k = Z.testbit c k).
Proof.
  intros Hstop. cbv zeta.
  apply field2_zero in Hstop. change (4 + 1) with 5 in Hstop.
  destruct Hstop as (H4 & H5).
  destruct (play_note_run note a)
    as (regs' & Hrun & Hctl & Hccr0 & Hccr1 & _).
  assert (Hn : uint16_t note mod 2 ^ 16 = uint16_t note).
  { unfold uint16_t. change (2 ^ 16) with 65536. apply Z.mod_mod. lia. }
  assert (Hh : uint16_t note / 2 mod 2 ^ 16 = uint16_t note / 2).
  { apply Z.mod_small. unfold uint16_t. change (2 ^ 16) with 65536.
    pose proof (Z.mod_pos_bound note 65536 ltac:(lia)).
    split; [ apply Z.div_pos; lia | ].
    apply Z.div_lt_upper_bound; lia. }
  unfold performed, pexec. rewrite Hrun.
  cbn [snd spi regs x y z wasInterrupt actions].
  rewrite skipn_app, skipn_all, Nat.sub_diag. cbn [skipn List.app].
  rewrite Hctl, Hccr0, Hccr1, Hn, Hh. unfold beep. rewrite Hn, Hh.
  split; [ reflexivity | ].
  split.
  { unfold timer_mode, field2, beep_on. change (4 + 1) with 5.
    bit_eval. rewrite H5, orb_true_r. reflexivity. }
  split; [ reflexivity | ].
  split.
  { unfold timer_mode, field2, beep_off, beep_on. change (4 + 1) with 5.
    bit_eval. rewrite !andb_false_r. reflexivity. }
  split; [ reflexivity | ]. split; [ reflexivity | ].
  intros k Hk Hk4 Hk5. unfold beep_off, beep_on.
  destruct (sixteen_cases k Hk)
    as [-> | [-> | [-> | [-> | [-> | [-> | [-> | [-> | [-> | [-> | [-> |
        [-> | [-> | [-> | [-> | ->]]]]]]]]]]]]]]];
    try congruence; bit_eval; rewrite ?andb_true_r, ?orb_false_r; reflexivity.
Qed.

Lemma play_note_beep_witness :
  let a := pexec piezo_init power_up in
  let c := regs a TA0CTL in
  let a' := pexec (play_note HG) a in
  timer_mode (regs a TA0CTL) = 0 /\
  performed (play_note HG) a
    = [ Store TA0CCR0 (uint16_t HG); Store TA0CCR1 (uint16_t HG / 2);
        Store TA0CTL (beep_on c); Lib (Clock_Delay1ms 50);
        Store TA0CTL (beep_off c); Lib (Clock_Delay1ms 50) ] /\
  timer_mode (beep_on c) = 1 /\
  regs a' TA0CTL = beep_off c /\
  timer_mode (regs a' TA0CTL) = 0 /\
  regs a' TA0CCR0 = uint16_t HG /\
  regs a' TA0CCR1 = uint16_t HG / 2 /\
  (forall k, 0 <= k < 16 -> k <> 4 -> k <> 5 ->
     Z.testbit (regs a' TA0CTL) k = Z.testbit c k).
Proof.
  cbv zeta. split; [ reflexivity | ].
  apply (play_note_beep HG (pexec piezo_init power_up)). reflexivity.
Defined.

(** ** Pin and timer set-up *)

Ltac mask_bits :=
  apply Z.bits_inj'; intros ?n ?Hn;
  repeat first
    [ rewrite Z.testbit_mod_pow2 by lia
    | rewrite Z.land_spec
    | rewrite Z.lor_spec
    | rewrite Z.lnot_spec by assumption ];
  repeat match goal with
  | |- context [Z.testbit ?v ?n] => destruct (Z.testbit v n)
  | |- context [Z.ltb ?n ?w] => destruct (Z.ltb n w)
  end;
  reflexivity.

Ltac setup_regs :=
  cbv beta; intros [s r xa ya za w acts] [];
  lazy - [Z.land Z.lor Z.lnot Z.modulo Z.pow];
  first [ reflexivity | mask_bits ].

Ltac setup_frame :=
  lazymatch goal with
  | |- frame_only ?p _ => unfold p
  end;
  lazymatch goal with
  | |- frame_only (pret tt) _ => intros [? ? ? ? ? ? ?]; reflexivity
  | |- _ => frame_prog
  end.

(** X18: the pin and timer set-up functions touch only the memory-mapped
    registers; running one twice leaves the registers as running it once
    does, and any two of them leave the same registers in either order. *)
Theorem setup_registers :
  Forall (fun p =>
    frame_only p (fun s => s) /\
    (forall a r, regs (pexec (p ;; p)%prog a) r = regs (pexec p a) r) /\
    Forall (fun q =>
      forall a r,
        regs (pexec (p ;; q)%prog a) r = regs (pexec (q ;; p)%prog a) r)
      setup) setup.
Proof.
  unfold setup at 2.
  repeat (apply Forall_cons || apply Forall_nil);
    cbv beta; (split; [ setup_frame | split; [ setup_regs | ] ]);
    unfold setup;
    repeat (apply Forall_cons || apply Forall_nil); setup_regs.
Qed.
